(** * waybacknews.searchapi: the search API client, embedded and verified

    A shallow embedding of [src/waybacknews/searchapi.py].  The Python
    values that travel through the client (parsed JSON, datetimes, the
    parameter dict) are an inductive type; dicts are association lists in
    insertion order, because the client iterates over them; the network is
    an explicit world (responses still to be served, requests issued so
    far) threaded through a state-and-exception monad; the generator
    [all_items] is a resumable machine with one step per [next()]. *)

From Stdlib Require Import ZArith String Ascii List Bool Lia.
From stdpp Require Import base option strings list gmap.

Local Set Warnings "-register-all".
Local Open Scope string_scope.
Local Open Scope list_scope.
Local Open Scope Z_scope.

(** ** Exceptions

    The exceptions that the client and the library calls it makes can
    raise.  A fallible pure computation has type [exn + A]. *)

Inductive exn :=
| KeyError (key : string)
| TypeError
| AttributeError
| ValueError
| IndexError
| RuntimeError (msg : string)
| ConnectionError
| JSONDecodeError.

Definition result (A : Type) : Type := exn + A.

Definition ok {A} (x : A) : result A := inr x.
Definition throw {A} (e : exn) : result A := inl e.

Definition and_then {A B} (r : result A) (k : A -> result B) : result B :=
  match r with
  | inl e => inl e
  | inr x => k x
  end.

Notation "'try' x <- r ; k" := (and_then r (fun x => k))
  (at level 10, x name, r at level 100, k at level 200,
   format "'[v' 'try'  x  <-  r ; '/' k ']'").

(** ** Text: decimal fields, [str.format], substring test *)

Module Text.

(** The decimal digit of [n mod 10]. *)
Definition digit (n : Z) : ascii := ascii_of_N (Z.to_N (48 + n mod 10)).

(** [n] as [width] zero-padded decimal digits, the rendering of the
    [%m], [%d], [%H], [%M], [%S] (width 2) and [%f] (width 6)
    directives.  The fields of a datetime are bounded by its constructor
    so that they fit their width. *)
Fixpoint zpad (width : nat) (n : Z) : string :=
  match width with
  | O => ""
  | S w => zpad w (n / 10) +:+ String (digit n) ""
  end.

(** [n] in decimal without padding, for a number of at most [digits]
    digits: the rendering of a C [%d], which is what the C library's
    [%Y] gives for the year. *)
Fixpoint decimal (digits : nat) (n : Z) : string :=
  match digits with
  | O => ""
  | S k =>
      (if n / 10 =? 0 then "" else decimal k (n / 10))
      +:+ String (digit n) ""
  end.

(** The value of a decimal digit character, if it is one. *)
Definition digit_val (c : ascii) : option Z :=
  let n := Z.of_N (N_of_ascii c) in
  if (48 <=? n) && (n <=? 57) then Some (n - 48) else None.

(** Reads exactly [width] decimal digits off the front of [s]. *)
Fixpoint read_digits (width : nat) (acc : Z) (s : string)
  : option (Z * string) :=
  match width with
  | O => Some (acc, s)
  | S w =>
      match s with
      | String c rest =>
          match digit_val c with
          | Some v => read_digits w (10 * acc + v) rest
          | None => None
          end
      | EmptyString => None
      end
  end.

(** [tmpl.format(args...)] for templates with automatically numbered
    fields: each [{}] takes the next argument (already converted with
    [str]); doubled braces are literal braces; a lone brace raises
    ValueError and a missing argument IndexError.  Arguments are not
    scanned again. *)
Fixpoint format (tmpl : string) (args : list string) : result string :=
  match tmpl with
  | EmptyString => ok ""
  | String c rest =>
      if Ascii.eqb c "{" then
        match rest with
        | String c' rest' =>
            if Ascii.eqb c' "}" then
              match args with
              | a :: args' =>
                  try s <- format rest' args'; ok (a +:+ s)
              | [] => throw IndexError
              end
            else if Ascii.eqb c' "{" then
              try s <- format rest' args; ok (String "{" s)
            else throw ValueError
        | EmptyString => throw ValueError
        end
      else if Ascii.eqb c "}" then
        match rest with
        | String c' rest' =>
            if Ascii.eqb c' "}" then
              try s <- format rest' args; ok (String "}" s)
            else throw ValueError
        | EmptyString => throw ValueError
        end
      else try s <- format rest args; ok (String c s)
  end.

(** [p] is a prefix of [s]. *)
Fixpoint is_prefix (p s : string) : bool :=
  match p, s with
  | EmptyString, _ => true
  | String a p', String b s' => Ascii.eqb a b && is_prefix p' s'
  | String _ _, EmptyString => false
  end.

(** [sub in s] for two Python strings. *)
Fixpoint is_substring (sub s : string) : bool :=
  is_prefix sub s ||
  match s with
  | EmptyString => false
  | String _ s' => is_substring sub s'
  end.

End Text.

(** ** Datetimes *)

Module PyDatetime.

(** A [datetime.datetime].  [tzinfo] is the fixed UTC offset in seconds
    of an aware value and [None] for a naive one. *)
Record datetime := mkDatetime {
  year : Z; month : Z; day : Z;
  hour : Z; minute : Z; second : Z; microsecond : Z;
  tzinfo : option Z;
  fold : bool
}.

(** [_is_leap], [_days_in_month] of the datetime module. *)
Definition is_leap (y : Z) : bool :=
  (y mod 4 =? 0) && (negb (y mod 100 =? 0) || (y mod 400 =? 0)).

Definition days_in_month (y m : Z) : Z :=
  if m =? 2 then (if is_leap y then 29 else 28)
  else if (m =? 4) || (m =? 6) || (m =? 9) || (m =? 11) then 30
  else 31.

(** The range checks of the [datetime] constructor. *)
Definition valid_date (y m d : Z) : bool :=
  (1 <=? y) && (y <=? 9999) && (1 <=? m) && (m <=? 12)
  && (1 <=? d) && (d <=? days_in_month y m).

Definition valid (t : datetime) : bool :=
  valid_date (year t) (month t) (day t)
  && ((0 <=? hour t) && (hour t <? 24) && (0 <=? minute t)
      && (minute t <? 60) && (0 <=? second t) && (second t <? 60)
      && (0 <=? microsecond t) && (microsecond t <? 1000000)).

(** The naive datetime at 00:00:00 of a calendar day. *)
Definition midnight (y m d : Z) : datetime :=
  mkDatetime y m d 0 0 0 0 None false.

(** One directive of [strftime].  The call goes to the C library, which
    writes the year of [%Y] as a plain decimal number, so a year below
    1000 comes out with fewer than four digits; the other numeric
    directives are zero-padded to their width. *)
Definition directive (t : datetime) (c : ascii) : string :=
  if Ascii.eqb c "Y" then Text.decimal 4 (year t)
  else if Ascii.eqb c "m" then Text.zpad 2 (month t)
  else if Ascii.eqb c "d" then Text.zpad 2 (day t)
  else if Ascii.eqb c "H" then Text.zpad 2 (hour t)
  else if Ascii.eqb c "M" then Text.zpad 2 (minute t)
  else if Ascii.eqb c "S" then Text.zpad 2 (second t)
  else if Ascii.eqb c "f" then Text.zpad 6 (microsecond t)
  else if Ascii.eqb c "%" then "%"
  else String "%" (String c "").

(** [t.strftime(fmt)]: literal characters are copied, [%c] is replaced
    by the rendering of directive [c]. *)
Fixpoint strftime (t : datetime) (fmt : string) : string :=
  match fmt with
  | EmptyString => ""
  | String c rest =>
      if Ascii.eqb c "%" then
        match rest with
        | String c' rest' => directive t c' +:+ strftime t rest'
        | EmptyString => "%"
        end
      else String c (strftime t rest)
  end.

(** [_days_before_year], [_days_before_month] and [_ymd2ord] of the
    datetime module: the ordinal of a day, 0001-01-01 being day 1. *)
Definition days_before_year (y : Z) : Z :=
  let y' := y - 1 in y' * 365 + y' / 4 - y' / 100 + y' / 400.

Definition DAYS_BEFORE_MONTH : list Z :=
  [-1; 0; 31; 59; 90; 120; 151; 181; 212; 243; 273; 304; 334].

Definition days_before_month (y m : Z) : Z :=
  nth (Z.to_nat m) DAYS_BEFORE_MONTH 0
  + (if (2 <? m) && is_leap y then 1 else 0).

Definition ymd2ord (y m d : Z) : Z :=
  days_before_year y + days_before_month y m + d.

(** [(t - datetime(1970, 1, 1)) // timedelta(0, 1)]: the wall-clock
    reading of [t] in whole seconds since 1970-01-01T00:00:00. *)
Definition wall_seconds (t : datetime) : Z :=
  (ymd2ord (year t) (month t) (day t) - ymd2ord 1970 1 1) * 86400
  + hour t * 3600 + minute t * 60 + second t.

(** Seconds since the epoch of midnight UTC of a calendar day. *)
Definition utc_midnight_epoch (y m d : Z) : Z :=
  (ymd2ord y m d - ymd2ord 1970 1 1) * 86400.

(** Whether a wall-clock reading, in seconds since 1970-01-01T00:00:00,
    falls on a day of the years 1..9999, the days a datetime can hold. *)
Definition in_datetime_range (wall : Z) : bool :=
  let ordinal := wall / 86400 + ymd2ord 1970 1 1 in
  (1 <=? ordinal) && (ordinal <=? ymd2ord 9999 12 31).

Section LocalTime.

(** The platform's local-time rule: the offset from UTC, in seconds,
    that [time.localtime(u)] applies at the instant [u]. *)
Variable utcoffset : Z -> Z.

(** [local(u)] inside [datetime._mktime]: the wall-clock reading of
    [time.localtime(u)], in seconds since 1970-01-01T00:00:00.  The
    reading is made into a datetime, which raises ValueError when its
    year is outside 1..9999. *)
Definition local (u : Z) : result Z :=
  let wall := u + utcoffset u in
  if in_datetime_range wall then ok wall else throw ValueError.

(** [datetime._mktime]: solves [t = local(u)] for [u]. *)
Definition mktime (t : datetime) : result Z :=
  let max_fold_seconds := 24 * 3600 in
  let tt := wall_seconds t in
  try lt <- local tt;
  let a := lt - tt in
  let u1 := tt - a in
  try t1 <- local u1;
  let finish (b : Z) : result Z :=
    let u2 := tt - b in
    try t2 <- local u2;
    if t2 =? tt then ok u2
    else if t1 =? tt then ok u1
    else ok ((if fold t then Z.min else Z.max) u1 u2) in
  if t1 =? tt then
    let u2 := u1 + (if fold t then max_fold_seconds
                    else - max_fold_seconds) in
    try lu2 <- local u2;
    let b := lu2 - u2 in
    if a =? b then ok u1 else finish b
  else finish (t1 - u1).

(** [t.timestamp()], as the exact number [num / den] the returned
    float stands for.  A naive value is read as local time, an aware
    one is shifted by its own offset.  With [microsecond = 0] the
    float is the integer itself (below 2^53 for every datetime);
    with a sub-second part Python rounds [s + microsecond / 1e6] to
    the nearest double, and the fraction below is its exact value. *)
Definition timestamp (t : datetime) : result (Z * Z) :=
  try s <- match tzinfo t with
           | None => mktime t
           | Some off => ok (wall_seconds t - off)
           end;
  ok (if microsecond t =? 0 then (s, 1)
      else (s * 1000000 + microsecond t, 1000000)).

End LocalTime.

(** The calendar-date form [YYYY-MM-DD]: the three fields, if [s] has
    exactly this shape. *)
Definition parse_ymd (s : string) : option (Z * Z * Z) :=
  match Text.read_digits 4 0 s with
  | Some (y, String c1 s1) =>
      match Text.read_digits 2 0 s1 with
      | Some (m, String c2 s2) =>
          match Text.read_digits 2 0 s2 with
          | Some (d, EmptyString) =>
              if Ascii.eqb c1 "-" && Ascii.eqb c2 "-"
              then Some (y, m, d) else None
          | _ => None
          end
      | _ => None
      end
  | _ => None
  end.

(** The calendar day of [t] written [YYYY-MM-DD]. *)
Definition iso_day (y m d : Z) : string :=
  Text.zpad 4 y +:+ "-" +:+ Text.zpad 2 m +:+ "-" +:+ Text.zpad 2 d.

(** A calendar day as [strftime("%Y-%m-%d")] writes it: the year in
    plain decimal, month and day in two digits. *)
Definition day_text (y m d : Z) : string :=
  Text.decimal 4 y +:+ "-" +:+ Text.zpad 2 m +:+ "-" +:+ Text.zpad 2 d.

End PyDatetime.

(** ** Python values and dicts *)

Module Py.
Import PyDatetime.

(** What [json()] can return, plus the datetimes and floats that
    [count_over_time] puts into its result.  A float is kept as the
    fraction [num / den] it stands for. *)
Inductive value :=
| VNone
| VBool (b : bool)
| VInt (n : Z)
| VFloat (num den : Z)
| VStr (s : string)
| VList (l : list value)
| VDict (d : list (string * value))
| VDatetime (t : datetime).

(** A dict with string keys, in insertion order. *)
Abbreviation dict := (list (string * value)).

(** A dict holds each key once. *)
Definition dict_wf (d : dict) : Prop := NoDup d.*1.

(** [d.get(k)] *)
Fixpoint dict_get (k : string) (d : dict) : option value :=
  match d with
  | [] => None
  | (k', v) :: d' => if String.eqb k' k then Some v else dict_get k d'
  end.

(** [d[k] = v]: an existing key keeps its place, a new one goes last. *)
Fixpoint dict_set (k : string) (v : value) (d : dict) : dict :=
  match d with
  | [] => [(k, v)]
  | (k', v') :: d' =>
      if String.eqb k' k then (k', v) :: d'
      else (k', v') :: dict_set k v d'
  end.

(** [d.update(other)] *)
Definition dict_update (d other : dict) : dict :=
  fold_left (fun acc kv => dict_set kv.1 kv.2 acc) other d.

(** [dict(pairs)] *)
Definition dict_of_pairs (pairs : dict) : dict := dict_update [] pairs.

(** [v == s] for a string [s]. *)
Definition eq_str (v : value) (s : string) : bool :=
  match v with
  | VStr s' => String.eqb s' s
  | _ => false
  end.

(** [k in v] for a string [k]: key membership in a dict, element
    membership in a list, substring test in a string, and a TypeError
    on values that are not containers. *)
Definition contains (k : string) (v : value) : result bool :=
  match v with
  | VDict d => ok (if dict_get k d is Some _ then true else false)
  | VList l => ok (existsb (fun x => eq_str x k) l)
  | VStr s => ok (Text.is_substring k s)
  | _ => throw TypeError
  end.

(** [v[k]] for a string [k]. *)
Definition getitem (v : value) (k : string) : result value :=
  match v with
  | VDict d =>
      match dict_get k d with
      | Some x => ok x
      | None => throw (KeyError k)
      end
  | _ => throw TypeError
  end.

(** [v.items()] *)
Definition items (v : value) : result dict :=
  match v with
  | VDict d => ok d
  | _ => throw AttributeError
  end.

End Py.

(** ** The network

    The HTTP layer ([requests]) as seen by the client: a request is
    recorded with the arguments it is issued with (the dict is serialised
    at that moment), and is answered by the next response the remote end
    has in store.  With nothing left to serve the call raises. *)

Module Http.
Import Py.

Record request := mkRequest {
  req_method : string;
  req_url : string;
  req_params : option dict;   (* the query string of [requests.get] *)
  req_json : option dict      (* the JSON body of [requests.post] *)
}.

(** A response: its body parsed as JSON ([None] when it is not JSON)
    and its headers, under their lower-case names. *)
Record response := mkResponse {
  resp_json : option value;
  resp_headers : gmap string string
}.

Record world := mkWorld {
  pending : list response;
  sent : list request
}.

(** Computations that talk to the network and may raise. *)
Definition M (A : Type) : Type := world -> result A * world.

Definition ret {A} (x : A) : M A := fun w => (inr x, w).
Definition raise {A} (e : exn) : M A := fun w => (inl e, w).
Definition bind {A B} (c : M A) (k : A -> M B) : M B :=
  fun w =>
    match c w with
    | (inr x, w') => k x w'
    | (inl e, w') => (inl e, w')
    end.
Definition lift {A} (r : result A) : M A := fun w => (r, w).

(** Issues [rq] and waits for the answer. *)
Definition exchange (rq : request) : M response :=
  fun w =>
    let log := sent w ++ [rq] in
    match pending w with
    | r :: rest => (inr r, mkWorld rest log)
    | [] => (inl ConnectionError, mkWorld [] log)
    end.

(** [requests.get(url, params)] *)
Definition requests_get (url : string) (params : option dict)
  : M response :=
  exchange (mkRequest "GET" url params None).

(** [requests.post(url, json=params)] *)
Definition requests_post (url : string) (params : option dict)
  : M response :=
  exchange (mkRequest "POST" url None params).

(** [r.json()] *)
Definition json (r : response) : M value :=
  match resp_json r with
  | Some v => ret v
  | None => raise JSONDecodeError
  end.

(** [r.headers.get(name)] *)
Definition header (r : response) (name : string) : option string :=
  resp_headers r !! name.

End Http.

Notation "'do' x <- c ; k" := (Http.bind c (fun x => k))
  (at level 10, x name, c at level 100, k at level 200,
   format "'[v' 'do'  x  <-  c ; '/' k ']'").
Notation "'do' ' ( x , y ) <- c ; k" :=
  (Http.bind c (fun xy => let '(x, y) := xy in k))
  (at level 10, x name, y name, c at level 100, k at level 200,
   format "'[v' 'do'  ' ( x ,  y )  <-  c ; '/' k ']'").

(** ** The client: [class SearchApiClient] *)

Module SearchApi.
Import Text PyDatetime Py Http.

Definition VERSION : string := "v1".

Definition API_BASE_URL : string :=
  "http://colsearch.sawood-dev.us.archive.org:8000/v1/".

Definition TERM_FIELD_TITLE : string := "title".
Definition TERM_FIELD_SNIPPET : string := "snippet".
Definition TERM_AGGREGATION_TOP : string := "top".
Definition TERM_AGGREGATION_SIGNIFICANT : string := "significant".
Definition TERM_AGGREGATION_RARE : string := "rare".

(** [__init__] stores the collection (and a logger that is never
    used). *)
Record SearchApiClient := mkClient { _collection : string }.

(** [_is_no_results]: a chain of [and], evaluated left to right and cut
    short at the first false operand. *)
Definition _is_no_results (results : value) : result bool :=
  try has_matches <- contains "matches" results;
  if negb has_matches then
    try has_detail <- contains "detail" results;
    if has_detail then
      try detail <- getitem results "detail";
      ok (eq_str detail "No results found!")
    else ok false
  else ok false.

(** [_date_query_clause] *)
Definition _date_query_clause (start_date end_date : datetime)
  : result string :=
  format "publication_date:[{} TO {}]"
         [strftime start_date "%Y-%m-%d"; strftime end_date "%Y-%m-%d"].

(** [_dict_to_list] *)
Definition _dict_to_list (data : value) : result value :=
  try kvs <- items data;
  ok (VList (map (fun kv => VDict [("name", VStr kv.1); ("value", kv.2)])
                 kvs)).

(** [_query] *)
Definition _query (self : SearchApiClient) (endpoint : string)
    (params : option dict) (method : string) : M (value * response) :=
  let endpoint_url := API_BASE_URL +:+ endpoint in
  do r <- (if String.eqb method "GET" then
             requests_get endpoint_url params
           else if String.eqb method "POST" then
             requests_post endpoint_url params
           else
             do msg <- lift (format "Unsupported method of '{}'" [method]);
             raise (RuntimeError msg));
  do body <- json r;
  ret (body, r).

(** The two statements that open [_overview_query], [all_items] and
    [terms]: [params = {"q": ...}] and [params.update(kwargs)]. *)
Definition search_params (query : string) (start_date end_date : datetime)
    (kwargs : dict) : result dict :=
  try clause <- _date_query_clause start_date end_date;
  try q <- format "{} AND {}" [query; clause];
  ok (dict_update [("q", VStr q)] kwargs).

(** [_overview_query] *)
Definition _overview_query (self : SearchApiClient) (query : string)
    (start_date end_date : datetime) (kwargs : dict) : M value :=
  do params <- lift (search_params query start_date end_date kwargs);
  do endpoint <- lift (format "{}/search/overview" [_collection self]);
  do ' (results, response) <- _query self endpoint (Some params) "POST";
  ret results.

(** [sample] *)
Definition sample (self : SearchApiClient) (query : string)
    (start_date end_date : datetime) (kwargs : dict) : M value :=
  do results <- _overview_query self query start_date end_date kwargs;
  do none <- lift (_is_no_results results);
  if none then ret (VList [])
  else lift (getitem results "matches").

(** [top_sources] *)
Definition top_sources (self : SearchApiClient) (query : string)
    (start_date end_date : datetime) (kwargs : dict) : M value :=
  do results <- _overview_query self query start_date end_date kwargs;
  do none <- lift (_is_no_results results);
  if none then ret (VList [])
  else do data <- lift (getitem results "topdomains");
       lift (_dict_to_list data).

(** [top_tlds] *)
Definition top_tlds (self : SearchApiClient) (query : string)
    (start_date end_date : datetime) (kwargs : dict) : M value :=
  do results <- _overview_query self query start_date end_date kwargs;
  do none <- lift (_is_no_results results);
  if none then ret (VList [])
  else do data <- lift (getitem results "toptlds");
       lift (_dict_to_list data).

(** [top_languages] *)
Definition top_languages (self : SearchApiClient) (query : string)
    (start_date end_date : datetime) (kwargs : dict) : M value :=
  do results <- _overview_query self query start_date end_date kwargs;
  do none <- lift (_is_no_results results);
  if none then ret (VList [])
  else do data <- lift (getitem results "toplangs");
       lift (_dict_to_list data).

(** [count] *)
Definition count (self : SearchApiClient) (query : string)
    (start_date end_date : datetime) (kwargs : dict) : M value :=
  do results <- _overview_query self query start_date end_date kwargs;
  do none <- lift (_is_no_results results);
  if none then ret (VInt 0)
  else lift (getitem results "total").

(** [item]: [params] keeps its default, [None]. *)
Definition item (self : SearchApiClient) (item_id : string) : M value :=
  do endpoint <- lift (format "{}/article/{}" [_collection self; item_id]);
  do ' (results, response) <- _query self endpoint None "GET";
  ret results.

(** [terms] *)
Definition terms (self : SearchApiClient) (query : string)
    (start_date end_date : datetime) (field aggregation : string)
    (kwargs : dict) : M value :=
  do params <- lift (search_params query start_date end_date kwargs);
  do endpoint <- lift (format "{}/terms/{}/{}"
                              [_collection self; field; aggregation]);
  do ' (results, response) <- _query self endpoint (Some params) "GET";
  ret results.

Section CountOverTime.

(** The platform's local-time rule (see [PyDatetime.mktime]). *)
Variable utcoffset : Z -> Z.

(** [ciso8601.parse_datetime] on the ISO 8601 forms other than the
    calendar date [YYYY-MM-DD]. *)
Variable parse_other_forms : string -> result datetime.

(** [ciso8601.parse_datetime]: a calendar date gives the naive
    datetime at 00:00:00 of that day, after the range checks of the
    datetime constructor. *)
Definition parse_datetime (s : string) : result datetime :=
  match parse_ymd s with
  | Some (y, m, d) =>
      if valid_date y m d then ok (midnight y m d) else throw ValueError
  | None => parse_other_forms s
  end.

(** One entry of [to_return]. *)
Definition day_entry (day : datetime) (day_value : value) : result value :=
  try ts <- timestamp utcoffset day;
  ok (VDict [("date", VDatetime day);
             ("timestamp", VFloat ts.1 ts.2);
             ("count", day_value)]).

(** The [for] loop of [count_over_time] over [data.items()]. *)
Fixpoint daily_loop (kvs : dict) (to_return : list value)
  : result (list value) :=
  match kvs with
  | [] => ok to_return
  | (day_date, day_value) :: rest =>
      try day <- parse_datetime day_date;
      try entry <- day_entry day day_value;
      daily_loop rest (to_return ++ [entry])
  end.

(** [count_over_time] *)
Definition count_over_time (self : SearchApiClient) (query : string)
    (start_date end_date : datetime) (kwargs : dict) : M value :=
  do results <- _overview_query self query start_date end_date kwargs;
  do none <- lift (_is_no_results results);
  if none then ret (VDict [])
  else
    do data <- lift (getitem results "dailycounts");
    do kvs <- lift (items data);
    do to_return <- lift (daily_loop kvs []);
    ret (VDict [("counts", VList to_return)]).

End CountOverTime.

(** *** The generator [all_items] *)

(** The arguments a call of [all_items] binds. *)
Record frame := mkFrame {
  f_self : SearchApiClient;
  f_query : string;
  f_start_date : datetime;
  f_end_date : datetime;
  f_page_size : Z;
  f_kwargs : dict
}.

(** A generator object: not started, suspended at the [yield] with the
    locals that are still read afterwards, or finished. *)
Inductive generator :=
| Created (args : frame)
| Suspended (args : frame) (params : dict) (response : response)
| Finished.

(** What one [next()] gives. *)
Inductive step :=
| Yield (page : value)
| StopIteration
| Raise (e : exn).

(** Calling [all_items] only creates the generator. *)
Definition all_items (self : SearchApiClient) (query : string)
    (start_date end_date : datetime) (page_size : Z) (kwargs : dict)
  : generator :=
  Created (mkFrame self query start_date end_date page_size kwargs).

(** Truth value of a header lookup: [None] and [''] are false. *)
Definition truthy (token : option string) : bool :=
  match token with
  | Some s => negb (String.eqb s "")
  | None => false
  end.

(** The body of the [while] loop up to the [yield]. *)
Definition fetch_page (args : frame) (params : dict) (w : world)
  : step * generator * world :=
  let call :=
    do endpoint <- lift (format "{}/search/result"
                                [_collection (f_self args)]);
    _query (f_self args) endpoint (Some params) "POST" in
  match call w with
  | (inr (page, response), w') =>
      (Yield page, Suspended args params response, w')
  | (inl e, w') => (Raise e, Finished, w')
  end.

(** One [next()]: runs the body from where it stands to the next
    [yield], to its end, or to an exception. *)
Definition next (g : generator) (w : world) : step * generator * world :=
  match g with
  | Created args =>
      match search_params (f_query args) (f_start_date args)
                          (f_end_date args) (f_kwargs args) with
      | inl e => (Raise e, Finished, w)
      | inr params =>
          let more_pages := true in
          if more_pages then fetch_page args params w
          else (StopIteration, Finished, w)
      end
  | Suspended args params response =>
      let next_link_token := header response "x-resume-token" in
      let '(params, more_pages) :=
        if truthy next_link_token then
          (dict_set "resume" (VStr (default "" next_link_token)) params,
           true)
        else (params, false) in
      if more_pages then fetch_page args params w
      else (StopIteration, Finished, w)
  | Finished => (StopIteration, Finished, w)
  end.

(** How a consumer's loop over the generator ends. *)
Inductive ending :=
| Exhausted
| Raised (e : exn)
| Unfinished.

(** [for page in gen: pages.append(page)], at most [fuel] calls of
    [next()]. *)
Fixpoint consume (fuel : nat) (g : generator) (w : world)
  : list value * ending * world :=
  match fuel with
  | O => ([], Unfinished, w)
  | S fuel' =>
      match next g w with
      | (Yield page, g', w') =>
          let '(pages, e, w'') := consume fuel' g' w' in
          (page :: pages, e, w'')
      | (StopIteration, _, w') => ([], Exhausted, w')
      | (Raise e, _, w') => ([], Raised e, w')
      end
  end.

End SearchApi.

Import Text PyDatetime Py Http SearchApi.

#[local] Arguments String.append !_ _ : simpl nomatch.

(** * Reference definitions

    What the documentation of the client says, written out, to state the
    theorems below against. *)

(** The clause for two calendar days, written out as [strftime] writes
    them. *)
Definition date_clause (start_date end_date : datetime) : string :=
  "publication_date:["
  +:+ day_text (year start_date) (month start_date) (day start_date)
  +:+ " TO "
  +:+ day_text (year end_date) (month end_date) (day end_date)
  +:+ "]".

(** Two datetimes on the same calendar day. *)
Definition same_day (t t' : datetime) : Prop :=
  year t = year t' /\ month t = month t' /\ day t = day t'.

(** The value sent under [q] when the caller does not override it. *)
Definition full_query (query : string) (start_date end_date : datetime)
  : string :=
  query +:+ " AND " +:+ date_clause start_date end_date.

(** The parameter mapping of a search: [q] first, then the caller's
    keyword arguments laid over it. *)
Definition merged_params (query : string) (start_date end_date : datetime)
    (kwargs : dict) : dict :=
  dict_update [("q", VStr (full_query query start_date end_date))] kwargs.

(** The requests of the client. *)
Definition post_request (endpoint : string) (params : dict) : request :=
  mkRequest "POST" (API_BASE_URL +:+ endpoint) None (Some params).

Definition get_request (endpoint : string) (params : option dict)
  : request :=
  mkRequest "GET" (API_BASE_URL +:+ endpoint) params None.

(** What the service's answer to one request amounts to. *)
Definition answer (w : world) : result value :=
  match pending w with
  | r :: _ =>
      match resp_json r with
      | Some body => ok body
      | None => throw JSONDecodeError
      end
  | [] => throw ConnectionError
  end.

(** The world after one request. *)
Definition after (w : world) (rq : request) : world :=
  mkWorld (tail (pending w)) (sent w ++ [rq]).

(** The envelope is a dict that lacks [matches] and holds the service's
    message under [detail]. *)
Definition no_results_envelope (d : dict) : Prop :=
  dict_get "matches" d = None
  /\ dict_get "detail" d = Some (VStr "No results found!").

(** The record of one mapping entry. *)
Definition name_value (kv : string * value) : value :=
  VDict [("name", VStr kv.1); ("value", kv.2)].

(** [(r['name'], r['value'])] of a record. *)
Definition record_pair (r : value) : result (string * value) :=
  try name <- getitem r "name";
  try v <- getitem r "value";
  match name with
  | VStr k => ok (k, v)
  | _ => throw TypeError
  end.

(** [dict((r['name'], r['value']) for r in records)] *)
Fixpoint records_to_dict (records : list value) (acc : dict) : result dict :=
  match records with
  | [] => ok acc
  | r :: rest =>
      try kv <- record_pair r;
      records_to_dict rest (dict_set kv.1 kv.2 acc)
  end.

(** The resume token of a response: the header, when present and not
    empty. *)
Definition resume_token (r : response) : option string :=
  match resp_headers r !! "x-resume-token" with
  | Some t => if decide (t = "") then None else Some t
  | None => None
  end.

(** The pagination loop as documented: POST the current parameters,
    yield the parsed page, and go on with the token as [resume] exactly
    when the response carries one.  Gives the pages yielded, the requests
    issued and how the iteration ends: a request that no response answers,
    or whose answer is not JSON, raises. *)
Fixpoint paginate (endpoint : string) (params : dict) (rs : list response)
  : list value * list request * ending :=
  let rq := post_request endpoint params in
  match rs with
  | [] => ([], [rq], Raised ConnectionError)
  | r :: rest =>
      match resp_json r with
      | None => ([], [rq], Raised JSONDecodeError)
      | Some page =>
          match resume_token r with
          | Some token =>
              let '(pages, rqs, e) :=
                paginate endpoint (dict_set "resume" (VStr token) params)
                         rest in
              (page :: pages, rq :: rqs, e)
          | None => ([page], [rq], Exhausted)
          end
      end
  end.

(** The entry of [counts] for the day [y-m-d] with value [v], the
    timestamp being [ts] seconds. *)
Definition counts_entry (ts : Z) (y m d : Z) (v : value) : value :=
  VDict [("date", VDatetime (midnight y m d));
         ("timestamp", VFloat ts 1);
         ("count", v)].

(** One entry of [dailycounts]: a calendar day and the value under it. *)
Record day_count := mkDayCount {
  dc_year : Z; dc_month : Z; dc_day : Z; dc_value : value
}.

Definition dailycounts_item (dc : day_count) : string * value :=
  (iso_day (dc_year dc) (dc_month dc) (dc_day dc), dc_value dc).

Definition day_count_valid (dc : day_count) : Prop :=
  valid_date (dc_year dc) (dc_month dc) (dc_day dc) = true.

(** The entry that [count_over_time] makes of a day whose timestamp
    is [ts]. *)
Definition entry_of (ts : day_count -> Z) (dc : day_count) : value :=
  counts_entry (ts dc) (dc_year dc) (dc_month dc) (dc_day dc) (dc_value dc).

(** The naive datetime at 00:00:00 of the day of a [dailycounts] key. *)
Definition day_midnight (dc : day_count) : datetime :=
  midnight (dc_year dc) (dc_month dc) (dc_day dc).

(** Every key of [params] is [q], [resume] or a key of [kwargs]. *)
Definition keys_from (kwargs params : dict) : Prop :=
  forall k : string,
    is_Some (dict_get k params) ->
    k = "q" \/ k = "resume" \/ is_Some (dict_get k kwargs).

(** The generator [g] had its call been made with [page_size = p]. *)
Definition with_page_size (p : Z) (g : generator) : generator :=
  let rebind (a : frame) : frame :=
    mkFrame (f_self a) (f_query a) (f_start_date a) (f_end_date a) p
      (f_kwargs a) in
  match g with
  | Created a => Created (rebind a)
  | Suspended a params r => Suspended (rebind a) params r
  | Finished => Finished
  end.

(** The parameters a generator holds come from [q], [resume] and the
    caller's keyword arguments. *)
Definition generator_keys (kwargs : dict) (g : generator) : Prop :=
  match g with
  | Created a => f_kwargs a = kwargs
  | Suspended a params r => keys_from kwargs params
  | Finished => True
  end.

(** The mapping [p] agrees with [params] on every key but [resume]. *)
Definition same_but_resume (params p : dict) : Prop :=
  forall k : string, k <> "resume" -> dict_get k p = dict_get k params.

(** A generator that posts to [endpoint] and whose parameters are, or
    will be, [params] up to [resume]. *)
Definition generator_params (endpoint : string) (params : dict)
    (g : generator) : Prop :=
  match g with
  | Created a =>
      _collection (f_self a) +:+ "/search/result" = endpoint
      /\ merged_params (f_query a) (f_start_date a) (f_end_date a)
           (f_kwargs a) = params
  | Suspended a p r =>
      _collection (f_self a) +:+ "/search/result" = endpoint
      /\ same_but_resume params p
  | Finished => True
  end.

(** A request is a JSON body whose keys are [q], [resume] or keys of
    [kwargs]. *)
Definition body_keys_from (kwargs : dict) (rq : request) : Prop :=
  req_params rq = None
  /\ exists p : dict, req_json rq = Some p /\ keys_from kwargs p.

(** Reads the decimal digits at the front of [s] onto [acc]: the number
    read and what follows it. *)
Fixpoint read_number (acc : Z) (s : string) : Z * string :=
  match s with
  | String c rest =>
      match digit_val c with
      | Some v => read_number (10 * acc + v) rest
      | None => (acc, s)
      end
  | EmptyString => (acc, s)
  end.

(** The dict [d] without the key [k]. *)
Definition without_key (k : string) (d : dict) : dict :=
  filter (fun kv => kv.1 <> k) d.

(** A response that lets the loop go on: a JSON body and a resume
    token. *)
Definition continues (r : response) : Prop :=
  is_Some (resp_json r) /\ is_Some (resume_token r).

(** Two responses with the same parsed body and the same resume token. *)
Definition same_page (r r' : response) : Prop :=
  resp_json r = resp_json r' /\ resume_token r = resume_token r'.

(** * Properties *)

(** ** Strings and decimal fields *)

Lemma append_empty_r (s : string) : s +:+ "" = s.
Proof. induction s as [|c s IH]; simpl; congruence. Qed.

Lemma append_assoc (a b c : string) : (a +:+ b) +:+ c = a +:+ (b +:+ c).
Proof. induction a as [|x a IH]; simpl; congruence. Qed.

Lemma digit_val_digit (n : Z) : digit_val (digit n) = Some (n mod 10).
Proof.
  pose proof (Z.mod_pos_bound n 10 eq_refl) as Hk.
  unfold digit_val, digit. set (k := n mod 10) in *.
  rewrite N_ascii_embedding by lia.
  rewrite Z2N.id by lia.
  destruct (Z.leb_spec 48 (48 + k)); [|lia].
  destruct (Z.leb_spec (48 + k) 57); [|lia].
  simpl. f_equal. lia.
Qed.

(** Reading back [w] digits written by [zpad] gives the number written,
    modulo [10 ^ w]. *)
Lemma read_digits_zpad (w : nat) :
  forall (k : nat) (n acc : Z) (rest : string),
    read_digits (w + k) acc (zpad w n +:+ rest)
    = read_digits k (acc * 10 ^ Z.of_nat w + n mod 10 ^ Z.of_nat w) rest.
Proof.
  induction w as [|w IH]; intros k n acc rest.
  - simpl. rewrite Z.mod_1_r. do 2 f_equal. lia.
  - cbn [zpad]. rewrite append_assoc. cbn [String.append].
    replace (S w + k)%nat with (w + S k)%nat by lia.
    rewrite IH. cbn [read_digits]. rewrite digit_val_digit.
    f_equal. rewrite Nat2Z.inj_succ, Z.pow_succ_r by lia.
    rewrite (Z.rem_mul_r n 10 (10 ^ Z.of_nat w)) by lia. lia.
Qed.

Lemma read_digits_zpad_exact (w : nat) (n : Z) (rest : string) :
  0 <= n < 10 ^ Z.of_nat w ->
  read_digits w 0 (zpad w n +:+ rest) = Some (n, rest).
Proof.
  intros Hn. replace w with (w + 0)%nat at 1 by lia.
  rewrite read_digits_zpad. cbn [read_digits].
  rewrite Z.mod_small by lia. reflexivity.
Qed.

(** A calendar day written [YYYY-MM-DD] reads back as the same day. *)
Lemma parse_ymd_iso_day (y m d : Z) :
  0 <= y < 10000 -> 0 <= m < 100 -> 0 <= d < 100 ->
  parse_ymd (iso_day y m d) = Some (y, m, d).
Proof.
  intros Hy Hm Hd. unfold parse_ymd, iso_day.
  rewrite read_digits_zpad_exact by (cbn; lia). cbn [String.append].
  rewrite read_digits_zpad_exact by (cbn; lia). cbn [String.append].
  rewrite <- (append_empty_r (zpad 2 d)).
  rewrite read_digits_zpad_exact by (cbn; lia). reflexivity.
Qed.

Lemma days_in_month_bound (y m : Z) : 28 <= days_in_month y m <= 31.
Proof.
  unfold days_in_month.
  repeat match goal with |- context [if ?b then _ else _] => destruct b end;
    lia.
Qed.

Lemma valid_date_bounds (y m d : Z) :
  valid_date y m d = true ->
  1 <= y <= 9999 /\ 1 <= m <= 12 /\ 1 <= d <= days_in_month y m.
Proof.
  unfold valid_date. rewrite !andb_true_iff, !Z.leb_le. tauto.
Qed.

Lemma valid_fields (t : datetime) :
  valid t = true ->
  0 <= year t < 10000 /\ 0 <= month t < 100 /\ 0 <= day t < 100.
Proof.
  unfold valid. rewrite andb_true_iff. intros [Hd _].
  apply valid_date_bounds in Hd.
  pose proof (days_in_month_bound (year t) (month t)). lia.
Qed.

(** ** [strftime] and [format] on the templates of the client *)

Lemma strftime_ymd (t : datetime) :
  strftime t "%Y-%m-%d" = day_text (year t) (month t) (day t).
Proof.
  unfold day_text. cbn [strftime directive Ascii.eqb Bool.eqb String.append].
  now rewrite append_empty_r.
Qed.

(** A year of four digits is written the same with and without
    padding. *)
Lemma decimal_four_digits (y : Z) :
  1000 <= y <= 9999 -> decimal 4 y = zpad 4 y.
Proof.
  intros Hy. cbn [decimal zpad].
  assert (100 <= y / 10) by (apply Z.div_le_lower_bound; lia).
  assert (10 <= y / 10 / 10) by (apply Z.div_le_lower_bound; lia).
  assert (1 <= y / 10 / 10 / 10) by (apply Z.div_le_lower_bound; lia).
  assert (y / 10 / 10 / 10 < 10)
    by (repeat (apply Z.div_lt_upper_bound; [lia|]); lia).
  rewrite (Z.div_small (y / 10 / 10 / 10) 10) by lia.
  repeat match goal with
         | |- context [?a =? 0] => destruct (Z.eqb_spec a 0); [lia|]
         end.
  reflexivity.
Qed.

Lemma day_text_iso_day (y m d : Z) :
  1000 <= y <= 9999 -> day_text y m d = iso_day y m d.
Proof.
  intros Hy. unfold day_text, iso_day. now rewrite decimal_four_digits.
Qed.

Lemma date_query_clause_ok (start_date end_date : datetime) :
  _date_query_clause start_date end_date
  = ok (date_clause start_date end_date).
Proof.
  unfold _date_query_clause, date_clause. rewrite !strftime_ymd.
  reflexivity.
Qed.

Lemma format_overview (c : string) :
  format "{}/search/overview" [c] = ok (c +:+ "/search/overview").
Proof. reflexivity. Qed.

Lemma format_result (c : string) :
  format "{}/search/result" [c] = ok (c +:+ "/search/result").
Proof. reflexivity. Qed.

Lemma format_article (c i : string) :
  format "{}/article/{}" [c; i] = ok (c +:+ "/article/" +:+ i).
Proof. cbn. now rewrite append_empty_r. Qed.

Lemma format_terms (c f a : string) :
  format "{}/terms/{}/{}" [c; f; a] = ok (c +:+ "/terms/" +:+ f +:+ "/" +:+ a).
Proof. cbn. now rewrite append_empty_r. Qed.

Lemma format_unsupported (m : string) :
  format "Unsupported method of '{}'" [m]
  = ok ("Unsupported method of '" +:+ m +:+ "'").
Proof. reflexivity. Qed.

Lemma format_and (q c : string) :
  format "{} AND {}" [q; c] = ok (q +:+ " AND " +:+ c).
Proof. cbn. now rewrite append_empty_r. Qed.

(** The class attribute is the template filled with [VERSION]. *)
Lemma API_BASE_URL_versioned :
  format "http://colsearch.sawood-dev.us.archive.org:8000/{}/" [VERSION]
  = ok API_BASE_URL.
Proof. reflexivity. Qed.

(** ** Dicts *)

Lemma dict_get_notin (k : string) (d : dict) :
  k ∉ d.*1 -> dict_get k d = None.
Proof.
  induction d as [|[k' v] d IH]; intros Hk; [reflexivity|].
  cbn in *. apply not_elem_of_cons in Hk as [Hne Hk].
  destruct (String.eqb_spec k' k); [congruence | auto].
Qed.

Lemma dict_get_set_eq (k : string) (v : value) (d : dict) :
  dict_get k (dict_set k v d) = Some v.
Proof.
  induction d as [|[k' v'] d IH]; cbn.
  - now rewrite String.eqb_refl.
  - destruct (String.eqb_spec k' k) as [->|Hne]; cbn.
    + now rewrite String.eqb_refl.
    + destruct (String.eqb_spec k' k); [congruence | exact IH].
Qed.

Lemma dict_get_set_ne (k k' : string) (v : value) (d : dict) :
  k <> k' -> dict_get k' (dict_set k v d) = dict_get k' d.
Proof.
  intros Hne. induction d as [|[k0 v0] d IH]; cbn.
  - destruct (String.eqb_spec k k'); [congruence | reflexivity].
  - destruct (String.eqb_spec k0 k) as [->|]; cbn.
    + destruct (String.eqb_spec k k'); [congruence | reflexivity].
    + now rewrite IH.
Qed.

Lemma dict_set_fresh (k : string) (v : value) (d : dict) :
  k ∉ d.*1 -> dict_set k v d = d ++ [(k, v)].
Proof.
  induction d as [|[k' v'] d IH]; intros Hk; [reflexivity|].
  cbn in *. apply not_elem_of_cons in Hk as [Hne Hk].
  destruct (String.eqb_spec k' k); [congruence|]. now rewrite IH.
Qed.

(** On a dict, [update] gives the keys of [other] their new values and
    leaves the rest as it was. *)
Lemma dict_get_update (k : string) (other : dict) :
  dict_wf other ->
  forall d : dict,
    dict_get k (dict_update d other)
    = match dict_get k other with
      | Some v => Some v
      | None => dict_get k d
      end.
Proof.
  unfold dict_wf, dict_update.
  induction other as [|[k0 v0] other IH]; intros Hwf d; [reflexivity|].
  cbn in *. apply NoDup_cons in Hwf as [Hk0 Hwf].
  rewrite IH by assumption.
  destruct (String.eqb_spec k0 k) as [->|Hne].
  - rewrite (dict_get_notin k other Hk0). apply dict_get_set_eq.
  - destruct (dict_get k other); [reflexivity|].
    now apply dict_get_set_ne.
Qed.

(** Feeding the entries of a dict to an empty dict rebuilds it. *)
Lemma dict_update_append (other : dict) :
  forall d : dict,
    NoDup (d ++ other).*1 -> dict_update d other = d ++ other.
Proof.
  unfold dict_update.
  induction other as [|[k v] other IH]; intros d Hwf; cbn.
  - now rewrite app_nil_r.
  - rewrite dict_set_fresh.
    + rewrite IH; rewrite <- app_assoc; [reflexivity | exact Hwf].
    + rewrite fmap_app in Hwf. apply NoDup_app in Hwf as (_ & Hd & _).
      intros Hin. apply (Hd k Hin). cbn. apply list_elem_of_here.
Qed.

Lemma dict_of_pairs_id (d : dict) : dict_wf d -> dict_of_pairs d = d.
Proof. intros Hwf. unfold dict_of_pairs. now rewrite dict_update_append. Qed.

(** ** The parameters of a search *)

Lemma search_params_ok (query : string) (start_date end_date : datetime)
    (kwargs : dict) :
  search_params query start_date end_date kwargs
  = ok (merged_params query start_date end_date kwargs).
Proof.
  unfold search_params, full_query. rewrite date_query_clause_ok.
  cbn [and_then ok]. now rewrite format_and.
Qed.

(** ** The date-range clause *)

(** C4, as the code has it: for every pair of (valid) datetimes whose
    years are 1000 or later, ordered or not, the date-range clause is
    exactly [publication_date:[<start> TO <end>]], where each bound is
    the calendar day of the datetime written [YYYY-MM-DD] (four, two and
    two digits that read back as its year, month and day), and it does
    not depend on the time-of-day fields: two datetimes on the same days
    give the same clause. *)
Theorem date_query_clause_spec (start_date end_date : datetime) :
  valid start_date = true ->
  valid end_date = true ->
  1000 <= year start_date ->
  1000 <= year end_date ->
  let s := iso_day (year start_date) (month start_date) (day start_date) in
  let e := iso_day (year end_date) (month end_date) (day end_date) in
  _date_query_clause start_date end_date
  = ok ("publication_date:[" +:+ s +:+ " TO " +:+ e +:+ "]")
  /\ parse_ymd s = Some (year start_date, month start_date, day start_date)
  /\ parse_ymd e = Some (year end_date, month end_date, day end_date)
  /\ forall start_date' end_date' : datetime,
       same_day start_date start_date' ->
       same_day end_date end_date' ->
       _date_query_clause start_date' end_date'
       = _date_query_clause start_date end_date.
Proof.
  intros Hs He Hys Hye s e.
  apply valid_fields in Hs as (? & ? & ?).
  apply valid_fields in He as (? & ? & ?).
  split; [|split; [|split]].
  - rewrite date_query_clause_ok. unfold date_clause.
    now rewrite !day_text_iso_day by lia.
  - now apply parse_ymd_iso_day.
  - now apply parse_ymd_iso_day.
  - intros s' e' (Hy & Hm & Hd) (Hy' & Hm' & Hd').
    rewrite !date_query_clause_ok. unfold date_clause.
    now rewrite Hy, Hm, Hd, Hy', Hm', Hd'.
Qed.

Lemma date_query_clause_spec_witness :
  _date_query_clause (mkDatetime 2023 1 5 13 7 9 250 None false)
                     (mkDatetime 2023 2 28 23 59 59 0 None false)
  = ok "publication_date:[2023-01-05 TO 2023-02-28]"
  /\ _date_query_clause (mkDatetime 2023 1 5 0 0 0 0 None false)
                        (mkDatetime 2023 2 28 0 0 0 0 None false)
     = ok "publication_date:[2023-01-05 TO 2023-02-28]".
Proof.
  pose proof (date_query_clause_spec
                (mkDatetime 2023 1 5 13 7 9 250 None false)
                (mkDatetime 2023 2 28 23 59 59 0 None false)
                eq_refl eq_refl ltac:(cbn; lia) ltac:(cbn; lia))
    as (Hc & _ & _ & Hsame).
  split.
  - exact Hc.
  - rewrite (Hsame (mkDatetime 2023 1 5 0 0 0 0 None false)
                   (mkDatetime 2023 2 28 0 0 0 0 None false));
      [exact Hc | repeat split | repeat split].
Defined.

(** C4, as stated, fails: the years 5 and 999 are written without
    leading zeros, so the bounds of the clause are not of the form
    [YYYY-MM-DD]. *)
Lemma date_query_clause_year_counterexample :
  let start_date := mkDatetime 5 12 31 0 0 0 0 None false in
  let end_date := mkDatetime 999 1 5 0 0 0 0 None false in
  valid start_date = true
  /\ valid end_date = true
  /\ _date_query_clause start_date end_date
     = ok "publication_date:[5-12-31 TO 999-01-05]"
  /\ iso_day 5 12 31 = "0005-12-31"
  /\ iso_day 999 1 5 = "0999-01-05"
  /\ parse_ymd "5-12-31" = None
  /\ parse_ymd "999-01-05" = None.
Proof. cbv zeta. repeat split. Qed.

(** ** The no-results predicate *)

Lemma is_no_results_dict (d : dict) :
  _is_no_results (VDict d)
  = ok (match dict_get "matches" d, dict_get "detail" d with
        | None, Some v => eq_str v "No results found!"
        | _, _ => false
        end).
Proof.
  unfold _is_no_results. cbn.
  destruct (dict_get "matches" d); cbn; [reflexivity|].
  destruct (dict_get "detail" d); reflexivity.
Qed.

Lemma eq_str_true (v : value) (s : string) :
  eq_str v s = true <-> v = VStr s.
Proof.
  destruct v; cbn; try (split; [discriminate | congruence]).
  rewrite String.eqb_eq. split; congruence.
Qed.

(** C2: on every dict envelope [_is_no_results] returns a boolean, and it
    is true if and only if the envelope lacks the key [matches] and holds
    exactly the string [No results found!] under [detail]; it is true for
    [{'detail': 'No results found!'}], false when [matches] is present
    too, and false for [{'total': 5}]. *)
Theorem is_no_results_spec :
  (forall d : dict,
     (exists b, _is_no_results (VDict d) = ok b)
     /\ (_is_no_results (VDict d) = ok true <-> no_results_envelope d))
  /\ _is_no_results (VDict [("detail", VStr "No results found!")]) = ok true
  /\ _is_no_results (VDict [("matches", VList []);
                            ("detail", VStr "No results found!")])
     = ok false
  /\ _is_no_results (VDict [("total", VInt 5)]) = ok false.
Proof.
  split; [|repeat split; reflexivity].
  intros d. rewrite is_no_results_dict. split; [eauto|].
  unfold no_results_envelope, ok.
  destruct (dict_get "matches" d) as [m|]; [intuition congruence|].
  destruct (dict_get "detail" d) as [v|]; [|intuition congruence].
  split.
  - intros H. injection H as H. apply eq_str_true in H. now subst.
  - intros [_ H]. injection H as ->. reflexivity.
Qed.

(** ** The dispatcher *)

Lemma query_post (self : SearchApiClient) (endpoint : string)
    (params : dict) (w : world) :
  _query self endpoint (Some params) "POST" w
  = match pending w with
    | r :: rest =>
        (match resp_json r with
         | Some body => ok (body, r)
         | None => throw JSONDecodeError
         end,
         mkWorld rest (sent w ++ [post_request endpoint params]))
    | [] => (throw ConnectionError,
             mkWorld [] (sent w ++ [post_request endpoint params]))
    end.
Proof.
  unfold _query, bind, requests_post, exchange, json, ret, raise. cbn.
  destruct (pending w) as [|r rest]; [reflexivity|].
  destruct (resp_json r); reflexivity.
Qed.

Lemma query_get (self : SearchApiClient) (endpoint : string)
    (params : option dict) (w : world) :
  _query self endpoint params "GET" w
  = match pending w with
    | r :: rest =>
        (match resp_json r with
         | Some body => ok (body, r)
         | None => throw JSONDecodeError
         end,
         mkWorld rest (sent w ++ [get_request endpoint params]))
    | [] => (throw ConnectionError,
             mkWorld [] (sent w ++ [get_request endpoint params]))
    end.
Proof.
  unfold _query, bind, requests_get, exchange, json, ret, raise. cbn.
  destruct (pending w) as [|r rest]; [reflexivity|].
  destruct (resp_json r); reflexivity.
Qed.

(** C8: for every endpoint, parameter mapping and method other than
    [GET] and [POST], [_query] raises the unsupported-method error and
    leaves the world as it found it: no request is issued and no response
    is consumed. *)
Theorem query_unsupported_method (self : SearchApiClient)
    (endpoint : string) (params : option dict) (method : string)
    (w : world) :
  method <> "GET" ->
  method <> "POST" ->
  _query self endpoint params method w
  = (throw (RuntimeError ("Unsupported method of '" +:+ method +:+ "'")), w).
Proof.
  intros Hget Hpost. unfold _query, bind.
  destruct (String.eqb_spec method "GET"); [contradiction|].
  destruct (String.eqb_spec method "POST"); [contradiction|].
  rewrite format_unsupported. reflexivity.
Qed.

Lemma query_unsupported_method_witness :
  _query (mkClient "mediacloud") "mediacloud/search/overview"
         (Some [("q", VStr "cats")]) "PUT"
         (mkWorld [mkResponse (Some (VDict [])) ∅] [])
  = (throw (RuntimeError "Unsupported method of 'PUT'"),
     mkWorld [mkResponse (Some (VDict [])) ∅] []).
Proof.
  apply (query_unsupported_method (mkClient "mediacloud")
           "mediacloud/search/overview" (Some [("q", VStr "cats")]) "PUT");
    discriminate.
Defined.

(** ** One exchange with the service *)

Lemma overview_query_run (self : SearchApiClient) (query : string)
    (start_date end_date : datetime) (kwargs : dict) (w : world) :
  _overview_query self query start_date end_date kwargs w
  = (answer w,
     after w (post_request (_collection self +:+ "/search/overview")
                (merged_params query start_date end_date kwargs))).
Proof.
  unfold _overview_query, bind, lift, answer, after.
  rewrite search_params_ok, format_overview. cbv beta iota delta [ok].
  rewrite query_post. unfold ret, ok, throw.
  destruct (pending w) as [|r rest]; [reflexivity|].
  destruct (resp_json r); reflexivity.
Qed.

Lemma item_run (self : SearchApiClient) (item_id : string) (w : world) :
  item self item_id w
  = (answer w,
     after w (get_request (_collection self +:+ "/article/" +:+ item_id)
                None)).
Proof.
  unfold item, bind, lift, answer, after.
  rewrite format_article. cbv beta iota delta [ok].
  rewrite query_get. unfold ret, ok, throw.
  destruct (pending w) as [|r rest]; [reflexivity|].
  destruct (resp_json r); reflexivity.
Qed.

Lemma terms_run (self : SearchApiClient) (query : string)
    (start_date end_date : datetime) (field aggregation : string)
    (kwargs : dict) (w : world) :
  terms self query start_date end_date field aggregation kwargs w
  = (answer w,
     after w (get_request
                (_collection self +:+ "/terms/" +:+ field +:+ "/"
                 +:+ aggregation)
                (Some (merged_params query start_date end_date kwargs)))).
Proof.
  unfold terms, bind, lift, answer, after.
  rewrite search_params_ok, format_terms. cbv beta iota delta [ok].
  rewrite query_get. unfold ret, ok, throw.
  destruct (pending w) as [|r rest]; [reflexivity|].
  destruct (resp_json r); reflexivity.
Qed.

Lemma answer_served (w : world) (r : response) (rest : list response)
    (body : value) :
  pending w = r :: rest -> resp_json r = Some body -> answer w = ok body.
Proof. unfold answer. now intros -> ->. Qed.

(** ** Item lookup and term aggregation *)

(** C9: when the service answers with a JSON body, [item] issues the
    single request [GET base_url + <collection>/article/<item_id>] with
    no parameters and returns the body as it is, whatever it holds (a
    no-results envelope included); and [terms] issues the single request
    [GET base_url + <collection>/terms/<field>/<aggregation>] with the
    search parameters as its query string and returns the body as it
    is. *)
Theorem item_and_terms_spec (self : SearchApiClient) (item_id query : string)
    (start_date end_date : datetime) (field aggregation : string)
    (kwargs : dict) (w : world) (r : response) (rest : list response)
    (body : value) :
  pending w = r :: rest ->
  resp_json r = Some body ->
  item self item_id w
  = (ok body,
     mkWorld rest
       (sent w ++ [mkRequest "GET"
                     (API_BASE_URL +:+ _collection self +:+ "/article/"
                      +:+ item_id)
                     None None]))
  /\ terms self query start_date end_date field aggregation kwargs w
     = (ok body,
        mkWorld rest
          (sent w ++ [mkRequest "GET"
                        (API_BASE_URL +:+ _collection self +:+ "/terms/"
                         +:+ field +:+ "/" +:+ aggregation)
                        (Some (merged_params query start_date end_date
                                 kwargs))
                        None])).
Proof.
  intros Hp Hj. rewrite item_run, terms_run.
  rewrite (answer_served w r rest body Hp Hj).
  unfold after, get_request. rewrite Hp. split; reflexivity.
Qed.

Lemma item_and_terms_spec_witness :
  let w := mkWorld [mkResponse (Some (VDict [("detail",
                                              VStr "No results found!")]))
                      ∅] [] in
  let t := mkDatetime 2023 1 5 13 7 9 0 None false in
  item (mkClient "mediacloud") "42" w
  = (ok (VDict [("detail", VStr "No results found!")]),
     mkWorld []
       [mkRequest "GET"
          "http://colsearch.sawood-dev.us.archive.org:8000/v1/mediacloud/article/42"
          None None])
  /\ terms (mkClient "mediacloud") "cats" t t "title" "top" [] w
     = (ok (VDict [("detail", VStr "No results found!")]),
        mkWorld []
          [mkRequest "GET"
             "http://colsearch.sawood-dev.us.archive.org:8000/v1/mediacloud/terms/title/top"
             (Some [("q", VStr "cats AND publication_date:[2023-01-05 TO 2023-01-05]")])
             None]).
Proof.
  intros w t.
  exact (item_and_terms_spec (mkClient "mediacloud") "42" "cats" t t
           "title" "top" [] w _ _ _ eq_refl eq_refl).
Defined.

(** ** The methods over the overview *)

(** Unfolds a method down to its overview query. *)
Ltac overview_method :=
  unfold sample, top_sources, top_tlds, top_languages, count,
    count_over_time, bind, lift, ret;
  rewrite overview_query_run.

(** Case analysis on every [match] left in the goal. *)
Ltac split_matches :=
  repeat match goal with
    | |- context [match ?x with _ => _ end] => destruct x; cbn
    end.

Section OverviewMethods.

Variable utcoffset : Z -> Z.
Variable parse_other_forms : string -> result datetime.
Variable self : SearchApiClient.
Variable query : string.
Variables start_date end_date : datetime.
Variable kwargs : dict.

Let overview : request :=
  post_request (_collection self +:+ "/search/overview")
    (merged_params query start_date end_date kwargs).

(** Each method issues the overview request and nothing else. *)
Lemma overview_methods_world (w : world) :
  (sample self query start_date end_date kwargs w).2 = after w overview
  /\ (top_sources self query start_date end_date kwargs w).2
     = after w overview
  /\ (top_tlds self query start_date end_date kwargs w).2
     = after w overview
  /\ (top_languages self query start_date end_date kwargs w).2
     = after w overview
  /\ (count self query start_date end_date kwargs w).2 = after w overview
  /\ (count_over_time utcoffset parse_other_forms self query start_date
        end_date kwargs w).2
     = after w overview.
Proof.
  repeat apply conj; overview_method;
    (destruct (answer w) as [e|results]; cbn; [reflexivity|]);
    (destruct (_is_no_results results) as [e|[]]; cbn;
     [reflexivity..|]);
    split_matches; reflexivity.
Qed.

(** On a no-results envelope each method gives its empty value. *)
Lemma overview_methods_no_results (w : world) (env : value) :
  answer w = ok env ->
  _is_no_results env = ok true ->
  sample self query start_date end_date kwargs w
  = (ok (VList []), after w overview)
  /\ top_sources self query start_date end_date kwargs w
     = (ok (VList []), after w overview)
  /\ top_tlds self query start_date end_date kwargs w
     = (ok (VList []), after w overview)
  /\ top_languages self query start_date end_date kwargs w
     = (ok (VList []), after w overview)
  /\ count self query start_date end_date kwargs w
     = (ok (VInt 0), after w overview)
  /\ count_over_time utcoffset parse_other_forms self query start_date
       end_date kwargs w
     = (ok (VDict []), after w overview).
Proof.
  intros Hanswer Hnone.
  repeat apply conj; overview_method; rewrite Hanswer; cbn;
    rewrite Hnone; reflexivity.
Qed.

End OverviewMethods.

(** C3: for every query, pair of dates and keyword arguments, when the
    service answers the overview request with an envelope on which
    [_is_no_results] is true, [sample], [top_sources], [top_tlds] and
    [top_languages] return [[]], [count] returns [0] and
    [count_over_time] returns [{}]: each returns normally, after the one
    overview request, without reading any other key of the envelope. *)
Theorem no_results_gives_empty (utcoffset : Z -> Z)
    (parse_other_forms : string -> result datetime)
    (self : SearchApiClient) (query : string)
    (start_date end_date : datetime) (kwargs : dict) (w : world)
    (r : response) (rest : list response) (env : value) :
  pending w = r :: rest ->
  resp_json r = Some env ->
  _is_no_results env = ok true ->
  let w' :=
    mkWorld rest
      (sent w ++ [post_request (_collection self +:+ "/search/overview")
                    (merged_params query start_date end_date kwargs)]) in
  sample self query start_date end_date kwargs w = (ok (VList []), w')
  /\ top_sources self query start_date end_date kwargs w
     = (ok (VList []), w')
  /\ top_tlds self query start_date end_date kwargs w = (ok (VList []), w')
  /\ top_languages self query start_date end_date kwargs w
     = (ok (VList []), w')
  /\ count self query start_date end_date kwargs w = (ok (VInt 0), w')
  /\ count_over_time utcoffset parse_other_forms self query start_date
       end_date kwargs w
     = (ok (VDict []), w').
Proof.
  intros Hp Hj Hnone w'.
  replace w' with
    (after w (post_request (_collection self +:+ "/search/overview")
                (merged_params query start_date end_date kwargs)))
    by (unfold after, w'; now rewrite Hp).
  apply overview_methods_no_results with (env := env); [|assumption].
  exact (answer_served w r rest env Hp Hj).
Qed.

Lemma no_results_gives_empty_witness :
  let t := mkDatetime 2023 1 5 13 7 9 0 None false in
  let w := mkWorld [mkResponse (Some (VDict [("detail",
                                              VStr "No results found!")]))
                      ∅] [] in
  let w' :=
    mkWorld []
      [mkRequest "POST"
         "http://colsearch.sawood-dev.us.archive.org:8000/v1/mediacloud/search/overview"
         None
         (Some [("q", VStr "cats AND publication_date:[2023-01-05 TO 2023-01-05]")])] in
  sample (mkClient "mediacloud") "cats" t t [] w = (ok (VList []), w')
  /\ top_sources (mkClient "mediacloud") "cats" t t [] w
     = (ok (VList []), w')
  /\ top_tlds (mkClient "mediacloud") "cats" t t [] w = (ok (VList []), w')
  /\ top_languages (mkClient "mediacloud") "cats" t t [] w
     = (ok (VList []), w')
  /\ count (mkClient "mediacloud") "cats" t t [] w = (ok (VInt 0), w')
  /\ count_over_time (fun _ => 0) (fun _ => throw ValueError)
       (mkClient "mediacloud") "cats" t t [] w
     = (ok (VDict []), w').
Proof.
  intros t w w'.
  exact (no_results_gives_empty (fun _ => 0) (fun _ => throw ValueError)
           (mkClient "mediacloud") "cats" t t [] w _ _ _
           eq_refl eq_refl eq_refl).
Defined.

(** ** The generator *)

Lemma fetch_page_run (args : frame) (params : dict) (w : world) :
  fetch_page args params w
  = let rq := post_request (_collection (f_self args) +:+ "/search/result")
                params in
    match pending w with
    | r :: rest =>
        match resp_json r with
        | Some page =>
            (Yield page, Suspended args params r,
             mkWorld rest (sent w ++ [rq]))
        | None =>
            (Raise JSONDecodeError, Finished, mkWorld rest (sent w ++ [rq]))
        end
    | [] => (Raise ConnectionError, Finished, mkWorld [] (sent w ++ [rq]))
    end.
Proof.
  unfold fetch_page, bind, lift.
  rewrite format_result. cbv beta iota delta [ok].
  rewrite query_post. unfold ok, throw.
  destruct (pending w) as [|r rest]; [reflexivity|].
  destruct (resp_json r); reflexivity.
Qed.

Lemma next_created (args : frame) (w : world) :
  next (Created args) w
  = fetch_page args
      (merged_params (f_query args) (f_start_date args) (f_end_date args)
         (f_kwargs args)) w.
Proof. unfold next. now rewrite search_params_ok. Qed.

(** The test [if next_link_token:] is the presence of a resume token. *)
Lemma next_suspended (args : frame) (params : dict) (r : response)
    (w : world) :
  next (Suspended args params r) w
  = match resume_token r with
    | Some token =>
        fetch_page args (dict_set "resume" (VStr token) params) w
    | None => (StopIteration, Finished, w)
    end.
Proof.
  unfold next, resume_token, header, truthy.
  destruct (resp_headers r !! "x-resume-token") as [t|]; [|reflexivity].
  destruct (decide (t = "")) as [->|Hne]; [reflexivity|].
  destruct (String.eqb_spec t ""); [contradiction | reflexivity].
Qed.

(** Consuming a generator that is about to fetch a page with [params]
    does what the documented loop does. *)
Lemma consume_paginate (args : frame) (rs : list response) :
  forall (fuel : nat) (g : generator) (params : dict) (log : list request),
    (length rs < fuel)%nat ->
    (forall w, next g w = fetch_page args params w) ->
    let pg := paginate (_collection (f_self args) +:+ "/search/result")
                params rs in
    consume fuel g (mkWorld rs log)
    = (pg.1.1, pg.2, mkWorld (drop (length pg.1.2) rs) (log ++ pg.1.2)).
Proof.
  induction rs as [|r rest IH]; intros fuel g params log Hfuel Hnext pg;
    (destruct fuel as [|fuel]; [cbn in Hfuel; lia|]);
    subst pg; cbn [consume paginate]; rewrite Hnext, fetch_page_run;
    cbn [pending sent].
  - reflexivity.
  - destruct (resp_json r) as [page|]; [|reflexivity].
    cbn in Hfuel.
    destruct (resume_token r) as [token|] eqn:Htoken.
    + specialize (IH fuel (Suspended args params r)
                    (dict_set "resume" (VStr token) params)
                    (log ++ [post_request
                               (_collection (f_self args)
                                +:+ "/search/result") params])
                    ltac:(lia)).
      cbv zeta in IH. rewrite IH.
      * destruct (paginate _ _ rest) as [[pages rqs] e]. cbn.
        now rewrite <- app_assoc.
      * intros w. rewrite next_suspended. now rewrite Htoken.
    + destruct fuel as [|fuel]; [lia|].
      cbn [consume]. rewrite next_suspended, Htoken. reflexivity.
Qed.

(** With enough fuel, consuming [all_items] is the documented loop over
    the search parameters. *)
Lemma consume_all_items (self : SearchApiClient) (query : string)
    (start_date end_date : datetime) (page_size : Z) (kwargs : dict)
    (rs : list response) (log : list request) (fuel : nat) :
  (length rs < fuel)%nat ->
  let pg := paginate (_collection self +:+ "/search/result")
              (merged_params query start_date end_date kwargs) rs in
  consume fuel (all_items self query start_date end_date page_size kwargs)
    (mkWorld rs log)
  = (pg.1.1, pg.2, mkWorld (drop (length pg.1.2) rs) (log ++ pg.1.2)).
Proof.
  intros Hfuel.
  apply (consume_paginate
           (mkFrame self query start_date end_date page_size kwargs));
    [assumption|].
  intros w. apply next_created.
Qed.

(** The dict [params] is one object for the whole iteration: the second
    [next()] writes [resume] into the very dict the first request was
    made from.  A request is recorded as it is issued, so the first one
    shows no [resume]; an observer who kept the dict itself rather than
    what was sent would read the token in it afterwards. *)
Example params_mutated_in_place :
  let t := mkDatetime 2023 1 5 13 7 9 0 None false in
  let q := VStr "cats AND publication_date:[2023-01-05 TO 2023-01-05]" in
  let page := VDict [("matches", VList [])] in
  let first := mkResponse (Some page) {[ "x-resume-token" := "abc" ]} in
  let second := mkResponse (Some page) ∅ in
  let args := mkFrame (mkClient "mediacloud") "cats" t t 1000 [] in
  let step1 := next (Created args) (mkWorld [first; second] []) in
  let step2 := next step1.1.2 step1.2 in
  step1.1.2 = Suspended args [("q", q)] first
  /\ step2.1.2 = Suspended args [("q", q); ("resume", VStr "abc")] second.
Proof. split; reflexivity. Qed.

(** ** The documented loop *)

Lemma post_request_inj (endpoint : string) (p p' : dict) :
  post_request endpoint p = post_request endpoint p' -> p = p'.
Proof. unfold post_request. congruence. Qed.

(** There is one request per page, and one more when the iteration ends
    in an exception; pages are never more than responses. *)
Lemma paginate_counts (endpoint : string) (rs : list response) :
  forall params : dict,
    let pg := paginate endpoint params rs in
    length pg.1.2
    = (length pg.1.1 + if pg.2 is Exhausted then 0 else 1)%nat
    /\ (length pg.1.1 <= length rs)%nat.
Proof.
  induction rs as [|r rest IH]; intros params; cbn; [lia|].
  destruct (resp_json r) as [page|]; cbn; [|lia].
  destruct (resume_token r) as [token|]; cbn; [|lia].
  specialize (IH (dict_set "resume" (VStr token) params)). cbv zeta in IH.
  destruct (paginate _ _ rest) as [[pages rqs] e]. cbn in *. lia.
Qed.

(** The pages are the parsed bodies of the first responses, in order. *)
Lemma paginate_pages (endpoint : string) (rs : list response) :
  forall params : dict,
    let pg := paginate endpoint params rs in
    Some <$> pg.1.1 = resp_json <$> take (length pg.1.1) rs.
Proof.
  induction rs as [|r rest IH]; intros params; cbn; [reflexivity|].
  destruct (resp_json r) as [page|] eqn:Hpage; cbn; [|reflexivity].
  destruct (resume_token r) as [token|]; cbn.
  - specialize (IH (dict_set "resume" (VStr token) params)).
    cbv zeta in IH.
    destruct (paginate _ _ rest) as [[pages rqs] e]. cbn in *.
    now rewrite Hpage, IH.
  - now rewrite Hpage.
Qed.

(** The first request carries the parameters the loop starts with. *)
Lemma paginate_first (endpoint : string) (params : dict)
    (rs : list response) :
  (paginate endpoint params rs).1.2 !! 0%nat
  = Some (post_request endpoint params).
Proof.
  destruct rs as [|r rest]; cbn; [reflexivity|].
  destruct (resp_json r); cbn; [|reflexivity].
  destruct (resume_token r); cbn; [|reflexivity].
  now destruct (paginate _ _ rest) as [[pages rqs] e].
Qed.

(** After the page of response [i]: with a resume token there is a next
    request, which carries the parameters of request [i] with [resume]
    set to the token; without one there is no further request and the
    iteration is over. *)
Lemma paginate_next (endpoint : string) (rs : list response) :
  forall (params : dict) (i : nat) (r : response) (p : dict),
    let pg := paginate endpoint params rs in
    (i < length pg.1.1)%nat ->
    rs !! i = Some r ->
    pg.1.2 !! i = Some (post_request endpoint p) ->
    match resume_token r with
    | Some token =>
        pg.1.2 !! S i
        = Some (post_request endpoint (dict_set "resume" (VStr token) p))
    | None =>
        pg.1.2 !! S i = None /\ pg.2 = Exhausted /\ length pg.1.1 = S i
    end.
Proof.
  induction rs as [|r0 rest IH]; intros params i r p; cbn;
    [intros; lia|].
  destruct (resp_json r0) as [page|]; cbn; [|intros; lia].
  destruct (resume_token r0) as [token|] eqn:Htoken.
  - specialize (IH (dict_set "resume" (VStr token) params)).
    pose proof (paginate_first endpoint
                  (dict_set "resume" (VStr token) params) rest) as Hfirst.
    destruct (paginate _ _ rest) as [[pages rqs] e]. cbn in *.
    destruct i as [|i]; cbn.
    + intros _ [= <-] Hp. apply (inj Some), post_request_inj in Hp as <-.
      now rewrite Htoken.
    + intros Hi Hr Hrq.
      specialize (IH i r p ltac:(lia) Hr Hrq).
      destruct (resume_token r); [exact IH|].
      destruct IH as (? & ? & ?). repeat split; [assumption.. | lia].
  - cbn. destruct i as [|i]; cbn; [|intros; lia].
    intros _ [= <-] _. now rewrite Htoken.
Qed.

(** Every request of the loop is a POST to the endpoint whose parameters
    agree with the initial ones except perhaps on [resume]. *)
Lemma paginate_requests (endpoint : string) (rs : list response) :
  forall params : dict,
    Forall (fun rq =>
              exists p : dict,
                rq = post_request endpoint p
                /\ forall k, k <> "resume" ->
                             dict_get k p = dict_get k params)
           (paginate endpoint params rs).1.2.
Proof.
  induction rs as [|r rest IH]; intros params; cbn.
  - repeat constructor. now exists params.
  - destruct (resp_json r); cbn; [|repeat constructor; now exists params].
    destruct (resume_token r) as [token|]; cbn;
      [|repeat constructor; now exists params].
    specialize (IH (dict_set "resume" (VStr token) params)).
    destruct (paginate _ _ rest) as [[pages rqs] e]. cbn in *.
    constructor; [now exists params|].
    eapply Forall_impl; [exact IH|].
    intros rq (p & -> & Hp). exists p. split; [reflexivity|].
    intros k Hk. rewrite Hp by assumption. now apply dict_get_set_ne.
Qed.

Lemma dict_set_keys (k k' : string) (v : value) (d : dict) :
  is_Some (dict_get k' (dict_set k v d)) ->
  k' = k \/ is_Some (dict_get k' d).
Proof.
  destruct (String.eqb_spec k k') as [->|Hne]; [now left|].
  rewrite dict_get_set_ne by assumption. now right.
Qed.

(** [update] adds no key of its own. *)
Lemma dict_update_keys (k : string) (other : dict) :
  forall d : dict,
    is_Some (dict_get k (dict_update d other)) ->
    is_Some (dict_get k d) \/ is_Some (dict_get k other).
Proof.
  unfold dict_update.
  induction other as [|[k0 v0] other IH]; intros d H; cbn in *; [now left|].
  destruct (IH _ H) as [Hd|Ho].
  - apply dict_set_keys in Hd as [->|Hd]; [|now left].
    right. rewrite String.eqb_refl. eauto.
  - right. destruct (String.eqb k0 k); eauto.
Qed.

Lemma merged_params_keys (query : string) (start_date end_date : datetime)
    (kwargs : dict) (k : string) :
  is_Some (dict_get k (merged_params query start_date end_date kwargs)) ->
  k = "q" \/ is_Some (dict_get k kwargs).
Proof.
  intros H. apply dict_update_keys in H as [H|H]; [|now right].
  left. cbn [dict_get] in H.
  destruct (String.eqb_spec "q" k); [congruence|].
  destruct H as [? [=]].
Qed.

(** ** Pagination *)

(** C1: for every finite sequence of responses, consuming [all_items]
    (with fuel for one [next()] more than there are responses) runs the
    documented loop: the pages yielded, the requests issued and the way
    the iteration ends are those of [paginate] on the search parameters.
    There is one POST to [<collection>/search/result] per yielded page
    (and one more, unanswered or answered with a body that is not JSON,
    exactly when the iteration ends in an exception); the pages are the
    parsed bodies of the first responses, in order; the first request
    carries the search parameters, without [resume] when the caller gave
    none; and after the page of response [i] there is a next request
    exactly when that response carries a present, non-empty
    [x-resume-token], in which case the request carries the parameters of
    request [i] with [resume] set to the token; otherwise the iteration
    stops. *)
Theorem all_items_pagination (self : SearchApiClient) (query : string)
    (start_date end_date : datetime) (page_size : Z) (kwargs : dict)
    (rs : list response) (log : list request) (fuel : nat) :
  (length rs < fuel)%nat ->
  let endpoint := _collection self +:+ "/search/result" in
  let params := merged_params query start_date end_date kwargs in
  let run :=
    consume fuel (all_items self query start_date end_date page_size kwargs)
      (mkWorld rs log) in
  let pages := run.1.1 in
  let ending := run.1.2 in
  exists rqs : list request,
    (pages, rqs, ending) = paginate endpoint params rs
    /\ run.2 = mkWorld (drop (length rqs) rs) (log ++ rqs)
    /\ length rqs
       = (length pages + if ending is Exhausted then 0 else 1)%nat
    /\ Forall (fun rq =>
                 req_method rq = "POST"
                 /\ req_url rq = API_BASE_URL +:+ endpoint
                 /\ req_params rq = None)
              rqs
    /\ Some <$> pages = resp_json <$> take (length pages) rs
    /\ rqs !! 0%nat = Some (post_request endpoint params)
    /\ (dict_get "resume" kwargs = None -> dict_get "resume" params = None)
    /\ forall (i : nat) (r : response) (p : dict),
         (i < length pages)%nat ->
         rs !! i = Some r ->
         rqs !! i = Some (post_request endpoint p) ->
         match resume_token r with
         | Some token =>
             rqs !! S i
             = Some (post_request endpoint
                       (dict_set "resume" (VStr token) p))
         | None =>
             rqs !! S i = None /\ ending = Exhausted /\ length pages = S i
         end.
Proof.
  intros Hfuel endpoint params run pages ending.
  pose proof (consume_all_items self query start_date end_date page_size
                kwargs rs log fuel Hfuel) as Hrun.
  cbv zeta in Hrun. fold endpoint params run in Hrun.
  set (pg := paginate endpoint params rs) in *.
  assert (pages = pg.1.1) as Hpages by (subst pages; now rewrite Hrun).
  assert (ending = pg.2) as Hending by (subst ending; now rewrite Hrun).
  clearbody pages ending. subst pages ending.
  exists pg.1.2. split; [|split; [|split; [|split; [|split; [|split;
    [|split]]]]]].
  - now destruct pg as [[? ?] ?].
  - now rewrite Hrun.
  - apply (paginate_counts endpoint rs params).
  - eapply Forall_impl; [apply (paginate_requests endpoint rs params)|].
    intros rq (p & -> & _). repeat split.
  - apply (paginate_pages endpoint rs params).
  - apply paginate_first.
  - intros Hnone.
    destruct (dict_get "resume" params) eqn:Hget; [|reflexivity].
    destruct (merged_params_keys query start_date end_date kwargs "resume")
      as [Hq|[v' Hv]]; [fold params; eauto | discriminate | congruence].
  - apply (paginate_next endpoint rs params).
Qed.

Lemma all_items_pagination_witness :
  let t := mkDatetime 2023 1 5 13 7 9 0 None false in
  let first := mkResponse (Some (VDict [("matches", VList [VInt 1])]))
                 {[ "x-resume-token" := "abc" ]} in
  let second := mkResponse (Some (VDict [("matches", VList [VInt 2])])) ∅ in
  let url :=
    "http://colsearch.sawood-dev.us.archive.org:8000/v1/mediacloud/search/result" in
  let q := VStr "cats AND publication_date:[2023-01-05 TO 2023-01-05]" in
  let run := consume 3 (all_items (mkClient "mediacloud") "cats" t t 1000 [])
               (mkWorld [first; second] []) in
  run.1.1 = [VDict [("matches", VList [VInt 1])];
             VDict [("matches", VList [VInt 2])]]
  /\ run.1.2 = Exhausted
  /\ run.2 = mkWorld []
               [mkRequest "POST" url None (Some [("q", q)]);
                mkRequest "POST" url None
                  (Some [("q", q); ("resume", VStr "abc")])].
Proof.
  intros t first second url q run.
  destruct (all_items_pagination (mkClient "mediacloud") "cats" t t 1000 []
              [first; second] [] 3 ltac:(cbn; lia))
    as (rqs & Hpg & Hw & _).
  fold run in Hpg, Hw.
  change (paginate _ _ _) with
    ([VDict [("matches", VList [VInt 1])];
      VDict [("matches", VList [VInt 2])]],
     [mkRequest "POST" url None (Some [("q", q)]);
      mkRequest "POST" url None (Some [("q", q); ("resume", VStr "abc")])],
     Exhausted) in Hpg.
  pose proof (f_equal (fun x => x.1.1) Hpg) as Hpages.
  pose proof (f_equal (fun x => x.1.2) Hpg) as Hrqs.
  pose proof (f_equal (fun x => x.2) Hpg) as Hending.
  cbn in Hpages, Hrqs, Hending. rewrite Hrqs in Hw.
  split; [exact Hpages | split; [exact Hending | exact Hw]].
Defined.

(** ** The query parameter contract *)

(** Whatever the number of steps, the requests of an iteration go to
    its endpoint and carry its parameters up to [resume]. *)
Lemma consume_same_but_resume (endpoint : string) (params : dict)
    (fuel : nat) :
  forall (g : generator) (w : world),
    generator_params endpoint params g ->
    exists rqs : list request,
      sent (consume fuel g w).2 = sent w ++ rqs
      /\ Forall (fun rq =>
                   exists p : dict,
                     rq = mkRequest "POST" (API_BASE_URL +:+ endpoint) None
                            (Some p)
                     /\ forall k, k <> "resume" ->
                                  dict_get k p = dict_get k params)
                rqs.
Proof.
  assert (forall a p w,
            _collection (f_self a) +:+ "/search/result" = endpoint ->
            same_but_resume params p ->
            (fetch_page a p w).2
            = mkWorld (tail (pending w))
                (sent w ++ [mkRequest "POST" (API_BASE_URL +:+ endpoint)
                              None (Some p)])
            /\ generator_params endpoint params (fetch_page a p w).1.2)
    as Hfetch.
  { intros a p w Hep Hp. rewrite fetch_page_run, Hep. cbv zeta.
    unfold post_request.
    destruct (pending w) as [|r rest]; [now split|].
    destruct (resp_json r); now split. }
  induction fuel as [|fuel IH]; intros g w Hg.
  - exists []. cbn. now rewrite app_nil_r.
  - cbn [consume].
    assert ((exists g', next g w = (StopIteration, g', w))
            \/ exists a p,
                 (_collection (f_self a) +:+ "/search/result" = endpoint
                  /\ same_but_resume params p)
                 /\ next g w = fetch_page a p w) as [[g' ->]|Hstep].
    { destruct g as [a|a p r|]; cbn [generator_params] in Hg.
      - right. exists a, params. destruct Hg as [Hep <-].
        split; [split; [assumption | now intros k _]|apply next_created].
      - rewrite next_suspended. destruct (resume_token r) as [token|];
          [|left; eauto].
        right. exists a, (dict_set "resume" (VStr token) p).
        destruct Hg as [Hep Hp].
        split; [split; [assumption|] | reflexivity].
        intros k Hk. rewrite dict_get_set_ne by congruence. now apply Hp.
      - left. eauto. }
    + exists []. cbn. now rewrite app_nil_r.
    + destruct Hstep as (a & p & [Hep Hp] & ->).
      destruct (Hfetch a p w Hep Hp) as [Hw Hg'].
      destruct (fetch_page a p w) as [[[page| |e] g'] w'];
        cbn [fst snd] in Hw, Hg'; subst w'.
      * destruct (IH g' (mkWorld (tail (pending w))
                           (sent w ++ [mkRequest "POST"
                                         (API_BASE_URL +:+ endpoint) None
                                         (Some p)])) Hg')
          as (rqs & Hrqs & Hall).
        exists (mkRequest "POST" (API_BASE_URL +:+ endpoint) None (Some p)
                :: rqs).
        destruct (consume fuel g' _) as [[pages e] w'']. cbn in *.
        rewrite Hrqs, <- app_assoc. split; [reflexivity|].
        constructor; [now exists p | assumption].
      * eexists [_]. split; [reflexivity|].
        apply Forall_singleton. now exists p.
      * eexists [_]. split; [reflexivity|].
        apply Forall_singleton. now exists p.
Qed.

Lemma fetch_page_sent (args : frame) (params : dict) (w : world) :
  sent (fetch_page args params w).2
  = sent w ++ [post_request (_collection (f_self args) +:+ "/search/result")
                 params].
Proof.
  rewrite fetch_page_run. cbv zeta.
  destruct (pending w) as [|r rest]; [reflexivity|].
  destruct (resp_json r); reflexivity.
Qed.

(** C5, as the code has it: for every query, pair of dates whose years
    are 1000 or later and keyword arguments, the six methods over the
    overview, [terms] and the first request of [all_items] send one and
    the same parameter mapping.  In it every keyword argument of the
    caller is bound to the caller's value, [q] included; when the caller
    passes no [q], it is bound to
    [<query> AND publication_date:[<start> TO <end>]] with both days
    written [YYYY-MM-DD]; and there is no other key.  Every request that
    consuming [all_items] issues carries the same mapping except for
    [resume]. *)
Theorem search_params_contract (query : string)
    (start_date end_date : datetime) (kwargs : dict) :
  dict_wf kwargs ->
  1000 <= year start_date <= 9999 ->
  1000 <= year end_date <= 9999 ->
  let params := merged_params query start_date end_date kwargs in
  search_params query start_date end_date kwargs = ok params
  /\ (forall (k : string) (v : value),
        dict_get k kwargs = Some v -> dict_get k params = Some v)
  /\ (dict_get "q" kwargs = None ->
      dict_get "q" params
      = Some (VStr (query +:+ " AND publication_date:["
                    +:+ iso_day (year start_date) (month start_date)
                          (day start_date)
                    +:+ " TO "
                    +:+ iso_day (year end_date) (month end_date)
                          (day end_date)
                    +:+ "]")))
  /\ (forall k : string,
        k <> "q" -> dict_get k kwargs = None -> dict_get k params = None)
  /\ forall (utcoffset : Z -> Z)
       (parse_other_forms : string -> result datetime)
       (self : SearchApiClient) (field aggregation : string)
       (page_size : Z) (w : world),
       let overview :=
         mkRequest "POST"
           (API_BASE_URL +:+ _collection self +:+ "/search/overview")
           None (Some params) in
       sent (sample self query start_date end_date kwargs w).2
       = sent w ++ [overview]
       /\ sent (top_sources self query start_date end_date kwargs w).2
          = sent w ++ [overview]
       /\ sent (top_tlds self query start_date end_date kwargs w).2
          = sent w ++ [overview]
       /\ sent (top_languages self query start_date end_date kwargs w).2
          = sent w ++ [overview]
       /\ sent (count self query start_date end_date kwargs w).2
          = sent w ++ [overview]
       /\ sent (count_over_time utcoffset parse_other_forms self query
                  start_date end_date kwargs w).2
          = sent w ++ [overview]
       /\ sent (terms self query start_date end_date field aggregation
                  kwargs w).2
          = sent w ++ [mkRequest "GET"
                         (API_BASE_URL +:+ _collection self +:+ "/terms/"
                          +:+ field +:+ "/" +:+ aggregation)
                         (Some params) None]
       /\ sent (next (all_items self query start_date end_date page_size
                        kwargs) w).2
          = sent w ++ [mkRequest "POST"
                         (API_BASE_URL +:+ _collection self
                          +:+ "/search/result")
                         None (Some params)]
       /\ forall fuel : nat,
            exists rqs : list request,
              sent (consume fuel
                      (all_items self query start_date end_date page_size
                         kwargs) w).2
              = sent w ++ rqs
              /\ Forall (fun rq =>
                           exists p : dict,
                             rq = mkRequest "POST"
                                    (API_BASE_URL +:+ _collection self
                                     +:+ "/search/result")
                                    None (Some p)
                             /\ forall k, k <> "resume" ->
                                          dict_get k p = dict_get k params)
                        rqs.
Proof.
  intros Hwf Hys Hye params.
  assert (forall k, dict_get k params
                    = match dict_get k kwargs with
                      | Some v => Some v
                      | None => dict_get k [("q", VStr (full_query query
                                                          start_date
                                                          end_date))]
                      end) as Hget
    by (intros k; apply dict_get_update; assumption).
  split; [apply search_params_ok|].
  split; [intros k v Hk; now rewrite Hget, Hk|].
  split.
  { intros Hq. rewrite Hget, Hq. unfold full_query, date_clause.
    now rewrite !day_text_iso_day by assumption. }
  split.
  { intros k Hk Hnone. rewrite Hget, Hnone. cbn [dict_get].
    destruct (String.eqb_spec "q" k); [congruence | reflexivity]. }
  intros utcoffset parse_other_forms self field aggregation page_size w
    overview.
  destruct (overview_methods_world utcoffset parse_other_forms self query
              start_date end_date kwargs w)
    as (H1 & H2 & H3 & H4 & H5 & H6).
  unfold all_items.
  rewrite H1, H2, H3, H4, H5, H6, terms_run, next_created, fetch_page_sent.
  repeat apply conj; try reflexivity.
  intros fuel.
  apply (consume_same_but_resume
           (_collection self +:+ "/search/result") params fuel
           (Created (mkFrame self query start_date end_date page_size
                       kwargs)) w).
  cbn. split; reflexivity.
Qed.

Lemma search_params_contract_witness :
  let t := mkDatetime 2023 1 5 13 7 9 0 None false in
  search_params "cats" t t [("page", VInt 2); ("q", VStr "dogs")]
  = ok [("q", VStr "dogs"); ("page", VInt 2)]
  /\ search_params "cats" t t [("page", VInt 2)]
     = ok [("q", VStr "cats AND publication_date:[2023-01-05 TO 2023-01-05]");
           ("page", VInt 2)].
Proof.
  intros t. split.
  - refine (proj1 (search_params_contract "cats" t t
                     [("page", VInt 2); ("q", VStr "dogs")] _ _ _));
      [unfold dict_wf; compute_done | cbn; lia..].
  - refine (proj1 (search_params_contract "cats" t t [("page", VInt 2)]
                     _ _ _));
      [unfold dict_wf; compute_done | cbn; lia..].
Defined.

(** C5, as stated, fails: with dates in the years 5 and 999 the value
    sent under [q] holds the days without leading zeros, not in the
    form [YYYY-MM-DD]. *)
Lemma search_params_year_counterexample :
  let start_date := mkDatetime 5 12 31 0 0 0 0 None false in
  let end_date := mkDatetime 999 1 5 0 0 0 0 None false in
  valid start_date = true
  /\ valid end_date = true
  /\ search_params "cats" start_date end_date []
     = ok [("q", VStr "cats AND publication_date:[5-12-31 TO 999-01-05]")]
  /\ sent (count (mkClient "mediacloud") "cats" start_date end_date []
             (mkWorld [] [])).2
     = [mkRequest "POST"
          "http://colsearch.sawood-dev.us.archive.org:8000/v1/mediacloud/search/overview"
          None
          (Some [("q",
                  VStr "cats AND publication_date:[5-12-31 TO 999-01-05]")])]
  /\ "cats AND publication_date:[5-12-31 TO 999-01-05]"
     <> "cats AND publication_date:[" +:+ iso_day 5 12 31 +:+ " TO "
        +:+ iso_day 999 1 5 +:+ "]".
Proof. cbv zeta. repeat split. discriminate. Qed.

(** ** Dict-to-list conversion *)

Lemma dict_to_list_dict (d : dict) :
  _dict_to_list (VDict d) = ok (VList (name_value <$> d)).
Proof. reflexivity. Qed.

Lemma record_pair_name_value (kv : string * value) :
  record_pair (name_value kv) = ok kv.
Proof. now destruct kv. Qed.

(** Reading the records back feeds the entries to the dict in order. *)
Lemma records_to_dict_name_value (d : dict) :
  forall acc : dict,
    records_to_dict (name_value <$> d) acc = ok (dict_update acc d).
Proof.
  induction d as [|kv d IH]; intros acc; [reflexivity|].
  cbn [fmap list_fmap records_to_dict].
  rewrite record_pair_name_value. cbn [and_then ok]. apply IH.
Qed.

(** C7: for every dict, [_dict_to_list] returns a list with exactly one
    record [{'name': key, 'value': value}] per entry, at the position the
    entry has in the dict's iteration order, and building a dict from the
    [(name, value)] pairs of the records gives the original dict back. *)
Theorem dict_to_list_spec (d : dict) :
  dict_wf d ->
  exists records : list value,
    _dict_to_list (VDict d) = ok (VList records)
    /\ length records = length d
    /\ (forall (i : nat) (k : string) (v : value),
          d !! i = Some (k, v) <->
          records !! i = Some (VDict [("name", VStr k); ("value", v)]))
    /\ records_to_dict records [] = ok d.
Proof.
  intros Hwf. exists (name_value <$> d).
  split; [apply dict_to_list_dict|].
  split; [apply length_fmap|].
  split.
  - intros i k v. rewrite list_lookup_fmap.
    destruct (d !! i) as [[k' v']|]; cbn; [|split; discriminate].
    unfold name_value. cbn. split; congruence.
  - rewrite records_to_dict_name_value.
    f_equal. now apply dict_of_pairs_id.
Qed.

Lemma dict_to_list_spec_witness :
  _dict_to_list (VDict [("a", VInt 1); ("b", VInt 2)])
  = ok (VList [VDict [("name", VStr "a"); ("value", VInt 1)];
               VDict [("name", VStr "b"); ("value", VInt 2)]])
  /\ records_to_dict [VDict [("name", VStr "a"); ("value", VInt 1)];
                      VDict [("name", VStr "b"); ("value", VInt 2)]] []
     = ok [("a", VInt 1); ("b", VInt 2)].
Proof.
  destruct (dict_to_list_spec [("a", VInt 1); ("b", VInt 2)])
    as (records & Hlist & _ & _ & Hback).
  - unfold dict_wf. compute_done.
  - change (_dict_to_list _) with
      (ok (VList [VDict [("name", VStr "a"); ("value", VInt 1)];
                  VDict [("name", VStr "b"); ("value", VInt 2)]]))
      in Hlist.
    injection Hlist as <-. split; [reflexivity | exact Hback].
Defined.

(** ** The [page_size] argument *)

Lemma fetch_page_with_page_size (p : Z) (a : frame) (params : dict)
    (w : world) :
  fetch_page (mkFrame (f_self a) (f_query a) (f_start_date a)
                (f_end_date a) p (f_kwargs a)) params w
  = let '(st, g, w') := fetch_page a params w in
    (st, with_page_size p g, w').
Proof.
  rewrite !fetch_page_run. cbn.
  destruct (pending w) as [|r rest]; [reflexivity|].
  destruct (resp_json r); reflexivity.
Qed.

(** A step does not look at [page_size]. *)
Lemma next_with_page_size (p : Z) (g : generator) (w : world) :
  next (with_page_size p g) w
  = let '(st, g', w') := next g w in (st, with_page_size p g', w').
Proof.
  destruct g as [a|a params r|]; cbn [with_page_size]; [| |reflexivity].
  - rewrite !next_created. apply fetch_page_with_page_size.
  - rewrite !next_suspended.
    destruct (resume_token r); [|reflexivity].
    apply fetch_page_with_page_size.
Qed.

Lemma consume_with_page_size (p : Z) (fuel : nat) :
  forall (g : generator) (w : world),
    consume fuel (with_page_size p g) w = consume fuel g w.
Proof.
  induction fuel as [|fuel IH]; intros g w; [reflexivity|].
  cbn [consume]. rewrite next_with_page_size.
  destruct (next g w) as [[[page| |e] g'] w']; [|reflexivity..].
  now rewrite IH.
Qed.

Lemma keys_from_merged (query : string) (start_date end_date : datetime)
    (kwargs : dict) :
  keys_from kwargs (merged_params query start_date end_date kwargs).
Proof.
  intros k Hk. apply merged_params_keys in Hk as [->|Hk]; auto.
Qed.

Lemma keys_from_resume (kwargs params : dict) (v : value) :
  keys_from kwargs params -> keys_from kwargs (dict_set "resume" v params).
Proof.
  intros Hkeys k Hk. apply dict_set_keys in Hk as [->|Hk]; auto.
Qed.

(** One fetch issues one request with the parameters it is given and
    leaves a generator that holds the same parameters. *)
Lemma fetch_page_keys (kwargs : dict) (a : frame) (params : dict)
    (w : world) :
  keys_from kwargs params ->
  exists rq : request,
    body_keys_from kwargs rq
    /\ sent (fetch_page a params w).2 = sent w ++ [rq]
    /\ generator_keys kwargs (fetch_page a params w).1.2.
Proof.
  intros Hkeys.
  exists (post_request (_collection (f_self a) +:+ "/search/result") params).
  split; [split; [reflexivity | now exists params]|].
  split; [apply fetch_page_sent|].
  rewrite fetch_page_run. cbv zeta.
  destruct (pending w) as [|r rest]; [exact I|].
  destruct (resp_json r); [exact Hkeys | exact I].
Qed.

(** A step either ends the iteration without a request or is one
    fetch. *)
Lemma next_keys (kwargs : dict) (g : generator) (w : world) :
  generator_keys kwargs g ->
  (exists g', next g w = (StopIteration, g', w))
  \/ exists (rq : request),
       body_keys_from kwargs rq
       /\ sent (next g w).2 = sent w ++ [rq]
       /\ generator_keys kwargs (next g w).1.2.
Proof.
  destruct g as [a|a params r|]; cbn [generator_keys]; intros Hg.
  - right. rewrite next_created. apply fetch_page_keys.
    subst kwargs. apply keys_from_merged.
  - rewrite next_suspended. destruct (resume_token r); [|eauto].
    right. apply fetch_page_keys. now apply keys_from_resume.
  - eauto.
Qed.

Lemma consume_keys (kwargs : dict) (fuel : nat) :
  forall (g : generator) (w : world),
    generator_keys kwargs g ->
    exists rqs : list request,
      sent (consume fuel g w).2 = sent w ++ rqs
      /\ Forall (body_keys_from kwargs) rqs.
Proof.
  induction fuel as [|fuel IH]; intros g w Hg.
  - exists []. cbn. now rewrite app_nil_r.
  - cbn [consume].
    destruct (next_keys kwargs g w Hg) as [[g' ->]|(rq & Hrq & Hsent & Hg')].
    + exists []. cbn. now rewrite app_nil_r.
    + destruct (next g w) as [[[page| |e] g'] w']; cbn in Hsent, Hg'.
      * destruct (IH g' w' Hg') as (rqs & Hrqs & Hall).
        exists (rq :: rqs).
        destruct (consume fuel g' w') as [[pages e] w'']. cbn in *.
        rewrite Hrqs, Hsent, <- app_assoc. split; [reflexivity|].
        now constructor.
      * exists [rq]. split; [exact Hsent | now apply Forall_singleton].
      * exists [rq]. split; [exact Hsent | now apply Forall_singleton].
Qed.

(** C10: for every query, pair of dates, keyword arguments, world and
    two values of [page_size], consuming [all_items] gives the same
    pages, the same ending and the same world, hence the same requests,
    whatever the number of steps taken.  Every request it issues is a
    JSON body whose keys are [q], [resume] or keys of the caller's
    keyword arguments, so that [page_size] is never a key of it: Python
    binds a keyword [page_size] to the parameter and leaves it out of
    [kwargs]. *)
Theorem page_size_has_no_effect (self : SearchApiClient) (query : string)
    (start_date end_date : datetime) (kwargs : dict) (p1 p2 : Z)
    (fuel : nat) (w : world) :
  consume fuel (all_items self query start_date end_date p1 kwargs) w
  = consume fuel (all_items self query start_date end_date p2 kwargs) w
  /\ exists rqs : list request,
       sent (consume fuel
               (all_items self query start_date end_date p1 kwargs) w).2
       = sent w ++ rqs
       /\ Forall (body_keys_from kwargs) rqs
       /\ (dict_get "page_size" kwargs = None ->
           Forall (fun rq =>
                     forall p : dict,
                       req_json rq = Some p ->
                       dict_get "page_size" p = None)
                  rqs).
Proof.
  split.
  - change (all_items self query start_date end_date p2 kwargs)
      with (with_page_size p2
              (all_items self query start_date end_date p1 kwargs)).
    now rewrite consume_with_page_size.
  - destruct (consume_keys kwargs fuel
                (all_items self query start_date end_date p1 kwargs) w
                eq_refl) as (rqs & Hsent & Hall).
    exists rqs. split; [exact Hsent|]. split; [exact Hall|].
    intros Hnone. eapply Forall_impl; [exact Hall|].
    intros rq (_ & p & Hp & Hkeys) p' Hp'.
    assert (p' = p) as -> by congruence.
    destruct (dict_get "page_size" p) as [v|] eqn:Hv; [|reflexivity].
    destruct (Hkeys "page_size") as [Hq|[Hr|[v' Hk]]];
      [eauto | discriminate | discriminate | congruence].
Qed.

Lemma page_size_has_no_effect_witness :
  let t := mkDatetime 2023 1 5 13 7 9 0 None false in
  let first := mkResponse (Some (VDict [("matches", VList [VInt 1])]))
                 {[ "x-resume-token" := "abc" ]} in
  let second := mkResponse (Some (VDict [("matches", VList [VInt 2])])) ∅ in
  let w := mkWorld [first; second] [] in
  consume 3 (all_items (mkClient "mediacloud") "cats" t t 1000
               [("sort", VStr "asc")]) w
  = consume 3 (all_items (mkClient "mediacloud") "cats" t t 10
                 [("sort", VStr "asc")]) w.
Proof.
  intros t first second w.
  exact (proj1 (page_size_has_no_effect (mkClient "mediacloud") "cats" t t
                  [("sort", VStr "asc")] 1000 10 3 w)).
Defined.

(** ** Counts over time *)

Lemma wall_seconds_midnight (y m d : Z) :
  wall_seconds (midnight y m d) = utc_midnight_epoch y m d.
Proof. unfold wall_seconds, utc_midnight_epoch, midnight. cbn. lia. Qed.

(** A reading within a day of a day that is neither the first nor the
    last a datetime can hold is still a reading of such a day. *)
Lemma in_datetime_range_near (wall ordinal x : Z) :
  wall = (ordinal - ymd2ord 1970 1 1) * 86400 + x ->
  1 < ordinal < ymd2ord 9999 12 31 ->
  -86400 <= x <= 86400 ->
  in_datetime_range wall = true.
Proof.
  intros -> Hord Hx. unfold in_datetime_range.
  change (ymd2ord 9999 12 31) with 3652059 in *.
  change (ymd2ord 1970 1 1) with 719163 in *.
  rewrite Z.div_add_l by lia.
  assert (-1 <= x / 86400) by (apply Z.div_le_lower_bound; lia).
  assert (x / 86400 <= 1) by (apply Z.div_le_upper_bound; lia).
  apply andb_true_iff. rewrite !Z.leb_le. lia.
Qed.

(** Where local time is UTC shifted by a constant, the midnight of a day
    is that constant ahead of its instant. *)
Lemma mktime_constant_offset (utcoffset : Z -> Z) (c y m d : Z) :
  (forall u, utcoffset u = c) ->
  -86400 <= c <= 86400 ->
  1 < ymd2ord y m d < ymd2ord 9999 12 31 ->
  mktime utcoffset (midnight y m d) = ok (utc_midnight_epoch y m d - c).
Proof.
  intros Hc Hbound Hord. unfold mktime.
  rewrite wall_seconds_midnight. cbn [fold midnight].
  set (tt := utc_midnight_epoch y m d).
  assert (forall u x, u + c = tt + x -> -86400 <= x <= 86400 ->
                      local utcoffset u = ok (tt + x)) as Hlocal.
  { intros u x Hu Hx. unfold local. rewrite Hc, Hu.
    rewrite (in_datetime_range_near (tt + x) (ymd2ord y m d) x);
      [reflexivity | reflexivity | assumption..]. }
  rewrite (Hlocal tt c) by lia. cbv beta iota zeta delta [and_then ok].
  rewrite (Hlocal (tt - (tt + c - tt)) 0) by lia.
  cbv beta iota zeta delta [and_then ok].
  destruct (Z.eqb_spec (tt + 0) tt); [|lia].
  rewrite (Hlocal (tt - (tt + c - tt) + - (24 * 3600)) (-86400)) by lia.
  cbv beta iota zeta delta [and_then ok].
  destruct (Z.eqb_spec (tt + c - tt)
              (tt + -86400 - (tt - (tt + c - tt) + - (24 * 3600))));
    [|lia].
  f_equal. lia.
Qed.

(** The only error of [_mktime] is the ValueError of [local]. *)
Lemma mktime_ok_or_ValueError (utcoffset : Z -> Z) (t : datetime) :
  (exists u, mktime utcoffset t = ok u)
  \/ mktime utcoffset t = throw ValueError.
Proof.
  unfold mktime, local, and_then, ok, throw.
  repeat match goal with
         | |- context [if ?b then _ else _] => destruct b
         end; eauto.
Qed.

Lemma day_entry_midnight (utcoffset : Z -> Z) (y m d ts : Z) (v : value) :
  mktime utcoffset (midnight y m d) = ok ts ->
  day_entry utcoffset (midnight y m d) v = ok (counts_entry ts y m d v).
Proof.
  intros Hts. unfold day_entry, timestamp. cbn [tzinfo midnight].
  now rewrite Hts.
Qed.

Lemma parse_datetime_iso_day
    (parse_other_forms : string -> result datetime) (y m d : Z) :
  valid_date y m d = true ->
  parse_datetime parse_other_forms (iso_day y m d) = ok (midnight y m d).
Proof.
  intros Hvalid. unfold parse_datetime.
  pose proof (valid_date_bounds y m d Hvalid) as (Hy & Hm & Hd).
  pose proof (days_in_month_bound y m).
  rewrite parse_ymd_iso_day by lia. now rewrite Hvalid.
Qed.

Section DailyCounts.

Variable utcoffset : Z -> Z.
Variable parse_other_forms : string -> result datetime.

Lemma daily_loop_days (ts : day_count -> Z) (days : list day_count) :
  Forall day_count_valid days ->
  Forall (fun dc => mktime utcoffset (day_midnight dc) = ok (ts dc)) days ->
  forall to_return : list value,
    daily_loop utcoffset parse_other_forms (dailycounts_item <$> days)
      to_return
    = ok (to_return ++ (entry_of ts <$> days)).
Proof.
  induction 1 as [|dc days Hdc _ IH]; intros Hts to_return.
  - cbn. now rewrite app_nil_r.
  - apply Forall_cons in Hts as [Hdcts Hts].
    change (dailycounts_item <$> dc :: days)
      with ((iso_day (dc_year dc) (dc_month dc) (dc_day dc), dc_value dc)
            :: (dailycounts_item <$> days)).
    cbn [daily_loop].
    rewrite parse_datetime_iso_day by exact Hdc. cbn [and_then ok].
    rewrite (day_entry_midnight utcoffset _ _ _ (ts dc)) by exact Hdcts.
    cbn [and_then ok].
    rewrite IH by assumption. now rewrite <- app_assoc.
Qed.

End DailyCounts.

(** C6, as the code has it: for every envelope that is not a no-results
    envelope and whose [dailycounts] maps [YYYY-MM-DD] days to values,
    [count_over_time] returns [{'counts': [...]}] with exactly one entry
    per key, in the order of the keys, provided [timestamp()] returns
    for each day (it raises for days at the very ends of the range of
    datetimes).  The [date] of an entry is the naive datetime at
    00:00:00 of its day, its [count] is the value of the key, and its
    [timestamp] is what [timestamp()] returns for that datetime, the
    epoch seconds of that wall-clock reading in the local time of the
    process: where local time is a constant [c] seconds (a day at most)
    ahead of UTC and the day is neither the first nor the last of the
    range, this is the epoch seconds of midnight UTC of the day less
    [c], hence those of midnight UTC exactly when the process runs in
    UTC. *)
Theorem count_over_time_counts (utcoffset : Z -> Z)
    (parse_other_forms : string -> result datetime)
    (self : SearchApiClient) (query : string)
    (start_date end_date : datetime) (kwargs : dict) (w : world)
    (r : response) (rest : list response) (env : value)
    (days : list day_count) (ts : day_count -> Z) :
  pending w = r :: rest ->
  resp_json r = Some env ->
  _is_no_results env = ok false ->
  getitem env "dailycounts" = ok (VDict (dailycounts_item <$> days)) ->
  Forall day_count_valid days ->
  Forall (fun dc =>
            mktime utcoffset
              (midnight (dc_year dc) (dc_month dc) (dc_day dc))
            = ok (ts dc))
         days ->
  (count_over_time utcoffset parse_other_forms self query start_date
     end_date kwargs w).1
  = ok (VDict
          [("counts",
            VList ((fun dc =>
                      VDict
                        [("date",
                          VDatetime (mkDatetime (dc_year dc) (dc_month dc)
                                       (dc_day dc) 0 0 0 0 None false));
                         ("timestamp", VFloat (ts dc) 1);
                         ("count", dc_value dc)])
                   <$> days))])
  /\ forall c : Z,
       (forall u, utcoffset u = c) ->
       -86400 <= c <= 86400 ->
       forall y m d : Z,
         1 < ymd2ord y m d < ymd2ord 9999 12 31 ->
         mktime utcoffset (midnight y m d)
         = ok (utc_midnight_epoch y m d - c).
Proof.
  intros Hp Hj Hsome Hdaily Hvalid Hts. split.
  - unfold count_over_time, bind, lift, ret.
    rewrite overview_query_run, (answer_served w r rest env Hp Hj).
    cbv beta iota delta [ok]. rewrite Hsome. cbv beta iota delta [ok].
    rewrite Hdaily. cbv beta iota delta [ok]. cbn [items].
    cbv beta iota delta [ok].
    rewrite (daily_loop_days utcoffset parse_other_forms ts days Hvalid Hts
               []).
    reflexivity.
  - intros c Hc Hbound y m d Hord. now apply mktime_constant_offset.
Qed.

Lemma count_over_time_counts_witness :
  let t := mkDatetime 2023 1 5 13 7 9 0 None false in
  let env := VDict [("total", VInt 8);
                    ("dailycounts", VDict [("2023-01-01", VInt 5);
                                           ("2023-01-02", VInt 3)])] in
  let w := mkWorld [mkResponse (Some env) ∅] [] in
  (count_over_time (fun _ => 0) (fun _ => throw ValueError)
     (mkClient "mediacloud") "cats" t t [] w).1
  = ok (VDict
          [("counts",
            VList [VDict [("date", VDatetime (midnight 2023 1 1));
                          ("timestamp", VFloat 1672531200 1);
                          ("count", VInt 5)];
                   VDict [("date", VDatetime (midnight 2023 1 2));
                          ("timestamp", VFloat 1672617600 1);
                          ("count", VInt 3)]])]).
Proof.
  intros t env w.
  refine (proj1 (count_over_time_counts (fun _ => 0)
                   (fun _ => throw ValueError) (mkClient "mediacloud")
                   "cats" t t [] w _ _ env
                   [mkDayCount 2023 1 1 (VInt 5);
                    mkDayCount 2023 1 2 (VInt 3)]
                   (fun dc =>
                      utc_midnight_epoch (dc_year dc) (dc_month dc)
                        (dc_day dc))
                   eq_refl eq_refl eq_refl eq_refl _ _));
    repeat constructor.
Defined.

(** C6, as stated, fails: in a process whose local time is one hour
    ahead of UTC the timestamps are those of local midnight, 3600
    seconds before midnight UTC of the same days. *)
Lemma count_over_time_utc_counterexample :
  let t := mkDatetime 2023 1 5 13 7 9 0 None false in
  let env := VDict [("total", VInt 8);
                    ("dailycounts", VDict [("2023-01-01", VInt 5);
                                           ("2023-01-02", VInt 3)])] in
  let w := mkWorld [mkResponse (Some env) ∅] [] in
  (count_over_time (fun _ => 3600) (fun _ => throw ValueError)
     (mkClient "mediacloud") "cats" t t [] w).1
  = ok (VDict
          [("counts",
            VList [VDict [("date", VDatetime (midnight 2023 1 1));
                          ("timestamp", VFloat 1672527600 1);
                          ("count", VInt 5)];
                   VDict [("date", VDatetime (midnight 2023 1 2));
                          ("timestamp", VFloat 1672614000 1);
                          ("count", VInt 3)]])])
  /\ utc_midnight_epoch 2023 1 1 = 1672531200
  /\ utc_midnight_epoch 2023 1 2 = 1672617600
  /\ 1672527600 <> utc_midnight_epoch 2023 1 1
  /\ 1672614000 <> utc_midnight_epoch 2023 1 2.
Proof. cbv zeta. repeat split; try reflexivity; discriminate. Qed.

(** On the first day a datetime can hold, [timestamp()] looks a day
    back and raises, and [count_over_time] with it, also in UTC. *)
Example count_over_time_first_day :
  let t := mkDatetime 2023 1 5 13 7 9 0 None false in
  let env := VDict [("dailycounts", VDict [("0001-01-01", VInt 5)])] in
  let w := mkWorld [mkResponse (Some env) ∅] [] in
  mktime (fun _ => 0) (midnight 1 1 1) = throw ValueError
  /\ (count_over_time (fun _ => 0) (fun _ => throw ValueError)
        (mkClient "mediacloud") "cats" t t [] w).1
     = throw ValueError.
Proof. split; reflexivity. Qed.

(** * Further properties of the client *)

(** ** The dispatcher, when the service answers *)

(** X1: when a response is pending, [_query] with [GET] or [POST] issues
    exactly one request to [API_BASE_URL + endpoint] and consumes exactly
    that response: [GET] carries the mapping as query parameters, [POST]
    as JSON body.  It returns the parsed body together with the response
    itself, and when the body is not JSON it raises, the request having
    been issued and the response consumed. *)
Theorem query_one_exchange (self : SearchApiClient) (endpoint : string)
    (params : option dict) (w : world) (r : response)
    (rest : list response) :
  pending w = r :: rest ->
  let outcome :=
    match resp_json r with
    | Some body => ok (body, r)
    | None => throw JSONDecodeError
    end in
  _query self endpoint params "GET" w
  = (outcome,
     mkWorld rest
       (sent w ++ [mkRequest "GET" (API_BASE_URL +:+ endpoint) params None]))
  /\ _query self endpoint params "POST" w
     = (outcome,
        mkWorld rest
          (sent w ++ [mkRequest "POST" (API_BASE_URL +:+ endpoint) None
                        params])).
Proof.
  intros Hp outcome. subst outcome.
  unfold _query, bind, requests_get, requests_post, exchange, json, ret,
    raise.
  cbn. rewrite Hp. destruct (resp_json r); split; reflexivity.
Qed.

Lemma query_one_exchange_witness :
  let r := mkResponse (Some (VDict [("total", VInt 5)]))
             {[ "x-resume-token" := "abc" ]} in
  let w := mkWorld [r] [] in
  _query (mkClient "mediacloud") "mediacloud/article/42" None "GET" w
  = (ok (VDict [("total", VInt 5)], r),
     mkWorld []
       [mkRequest "GET"
          "http://colsearch.sawood-dev.us.archive.org:8000/v1/mediacloud/article/42"
          None None])
  /\ _query (mkClient "mediacloud") "mediacloud/article/42" None "POST" w
     = (ok (VDict [("total", VInt 5)], r),
        mkWorld []
          [mkRequest "POST"
             "http://colsearch.sawood-dev.us.archive.org:8000/v1/mediacloud/article/42"
             None None]).
Proof.
  intros r w.
  exact (query_one_exchange (mkClient "mediacloud") "mediacloud/article/42"
           None w r [] eq_refl).
Defined.

(** ** Envelopes that are not no-results envelopes *)

Lemma is_no_results_false (d : dict) :
  ~ no_results_envelope d -> _is_no_results (VDict d) = ok false.
Proof.
  intros Hnot. rewrite is_no_results_dict. unfold no_results_envelope in Hnot.
  destruct (dict_get "matches" d); [reflexivity|].
  destruct (dict_get "detail" d) as [v|]; [|reflexivity].
  destruct (eq_str v "No results found!") eqn:Heq; [|reflexivity].
  apply eq_str_true in Heq as ->. tauto.
Qed.

(** A value that is not a dict is no envelope at all: the predicate is
    false or raises TypeError on it, and so does every subscript. *)
Lemma is_no_results_not_dict (v : value) :
  (forall d : dict, v <> VDict d) ->
  (_is_no_results v = ok false \/ _is_no_results v = throw TypeError)
  /\ forall k : string, getitem v k = throw TypeError.
Proof.
  intros Hnot. split; [|intros k; destruct v; try reflexivity; congruence].
  destruct v as [| | | | s | l | d |]; try (right; reflexivity).
  - unfold _is_no_results. cbn.
    destruct (is_substring "matches" s); cbn; [now left|].
    destruct (is_substring "detail" s); cbn; [now right | now left].
  - unfold _is_no_results. cbn.
    destruct (existsb _ l); cbn; [now left|].
    destruct (existsb _ l); cbn; [now right | now left].
  - now destruct (Hnot d).
Qed.

Lemma items_not_dict (v : value) :
  (forall d : dict, v <> VDict d) -> items v = throw AttributeError.
Proof. intros Hnot. destruct v; try reflexivity. now destruct (Hnot d). Qed.

(** Runs a method over the overview on an answered request, rewriting
    with the facts in the context as they come to the head. *)
Ltac run_overview_method Hanswer :=
  overview_method; rewrite Hanswer; cbv beta iota delta [ok];
  repeat (progress (try match goal with
                        | H : _is_no_results _ = _ |- _ => rewrite H
                        end;
                    try match goal with
                        | H : getitem _ _ = _ |- _ => rewrite H
                        end;
                    try match goal with
                        | H : forall k, getitem _ k = _ |- _ => rewrite H
                        end;
                    try match goal with
                        | H : items _ = _ |- _ => rewrite H
                        end;
                    cbv beta iota delta [ok throw])).

(** X2: on an answered overview request whose envelope is not a
    no-results envelope, [sample] returns the value under [matches] as it
    is, [count] the value under [total], and [top_sources], [top_tlds]
    and [top_languages] the entries of the dict under [topdomains],
    [toptlds] and [toplangs] as [{'name', 'value'}] records in the dict's
    order; each after the one overview request. *)
Theorem overview_methods_results (self : SearchApiClient) (query : string)
    (start_date end_date : datetime) (kwargs : dict) (w : world)
    (r : response) (rest : list response) (env : value) :
  pending w = r :: rest ->
  resp_json r = Some env ->
  _is_no_results env = ok false ->
  let w' :=
    mkWorld rest
      (sent w ++ [post_request (_collection self +:+ "/search/overview")
                    (merged_params query start_date end_date kwargs)]) in
  (forall v : value,
     getitem env "matches" = ok v ->
     sample self query start_date end_date kwargs w = (ok v, w'))
  /\ (forall v : value,
        getitem env "total" = ok v ->
        count self query start_date end_date kwargs w = (ok v, w'))
  /\ (forall d : dict,
        getitem env "topdomains" = ok (VDict d) ->
        top_sources self query start_date end_date kwargs w
        = (ok (VList ((fun kv => VDict [("name", VStr kv.1);
                                        ("value", kv.2)]) <$> d)), w'))
  /\ (forall d : dict,
        getitem env "toptlds" = ok (VDict d) ->
        top_tlds self query start_date end_date kwargs w
        = (ok (VList ((fun kv => VDict [("name", VStr kv.1);
                                        ("value", kv.2)]) <$> d)), w'))
  /\ (forall d : dict,
        getitem env "toplangs" = ok (VDict d) ->
        top_languages self query start_date end_date kwargs w
        = (ok (VList ((fun kv => VDict [("name", VStr kv.1);
                                        ("value", kv.2)]) <$> d)), w')).
Proof.
  intros Hp Hj Hnone w'.
  pose proof (answer_served w r rest env Hp Hj) as Hanswer.
  assert (after w (post_request (_collection self +:+ "/search/overview")
                     (merged_params query start_date end_date kwargs)) = w')
    as Hw by (unfold after, w'; now rewrite Hp).
  repeat apply conj; intros v Hget; run_overview_method Hanswer;
    now rewrite Hw.
Qed.

Lemma overview_methods_results_witness :
  let t := mkDatetime 2023 1 5 13 7 9 0 None false in
  let env := VDict [("total", VInt 5);
                    ("matches", VList [VDict [("title", VStr "Cats")]]);
                    ("topdomains", VDict [("a.com", VInt 3);
                                          ("b.org", VInt 2)])] in
  let w := mkWorld [mkResponse (Some env) ∅] [] in
  (sample (mkClient "mediacloud") "cats" t t [] w).1
  = ok (VList [VDict [("title", VStr "Cats")]])
  /\ (count (mkClient "mediacloud") "cats" t t [] w).1 = ok (VInt 5)
  /\ (top_sources (mkClient "mediacloud") "cats" t t [] w).1
     = ok (VList [VDict [("name", VStr "a.com"); ("value", VInt 3)];
                  VDict [("name", VStr "b.org"); ("value", VInt 2)]]).
Proof.
  intros t env w.
  destruct (overview_methods_results (mkClient "mediacloud") "cats" t t []
              w _ _ env eq_refl eq_refl eq_refl)
    as (Hsample & Hcount & Hsources & _).
  rewrite (Hsample _ eq_refl), (Hcount _ eq_refl), (Hsources _ eq_refl).
  repeat split.
Defined.

(** X3: on an answered overview request whose envelope is a dict that is
    not a no-results envelope, a method whose key is missing raises
    KeyError for that key ([matches], [topdomains], [toptlds],
    [toplangs], [total], [dailycounts]), after the one overview request:
    an error answer of the service that is not the no-results message
    surfaces as a missing key. *)
Theorem overview_methods_missing_key (utcoffset : Z -> Z)
    (parse_other_forms : string -> result datetime)
    (self : SearchApiClient) (query : string)
    (start_date end_date : datetime) (kwargs : dict) (w : world)
    (r : response) (rest : list response) (d : dict) :
  pending w = r :: rest ->
  resp_json r = Some (VDict d) ->
  ~ no_results_envelope d ->
  let w' :=
    mkWorld rest
      (sent w ++ [post_request (_collection self +:+ "/search/overview")
                    (merged_params query start_date end_date kwargs)]) in
  (dict_get "matches" d = None ->
   sample self query start_date end_date kwargs w
   = (throw (KeyError "matches"), w'))
  /\ (dict_get "topdomains" d = None ->
      top_sources self query start_date end_date kwargs w
      = (throw (KeyError "topdomains"), w'))
  /\ (dict_get "toptlds" d = None ->
      top_tlds self query start_date end_date kwargs w
      = (throw (KeyError "toptlds"), w'))
  /\ (dict_get "toplangs" d = None ->
      top_languages self query start_date end_date kwargs w
      = (throw (KeyError "toplangs"), w'))
  /\ (dict_get "total" d = None ->
      count self query start_date end_date kwargs w
      = (throw (KeyError "total"), w'))
  /\ (dict_get "dailycounts" d = None ->
      count_over_time utcoffset parse_other_forms self query start_date
        end_date kwargs w
      = (throw (KeyError "dailycounts"), w')).
Proof.
  intros Hp Hj Hnot w'.
  pose proof (answer_served w r rest _ Hp Hj) as Hanswer.
  pose proof (is_no_results_false d Hnot) as Hnone.
  assert (after w (post_request (_collection self +:+ "/search/overview")
                     (merged_params query start_date end_date kwargs)) = w')
    as Hw by (unfold after, w'; now rewrite Hp).
  repeat apply conj; intros Hmissing;
    run_overview_method Hanswer; cbn [getitem]; rewrite Hmissing;
    now rewrite Hw.
Qed.

Lemma overview_methods_missing_key_witness :
  let t := mkDatetime 2023 1 5 13 7 9 0 None false in
  let w := mkWorld [mkResponse
                      (Some (VDict [("detail",
                                     VStr "Internal Server Error")])) ∅]
             [] in
  (sample (mkClient "mediacloud") "cats" t t [] w).1
  = throw (KeyError "matches")
  /\ (count (mkClient "mediacloud") "cats" t t [] w).1
     = throw (KeyError "total").
Proof.
  intros t w.
  destruct (overview_methods_missing_key (fun _ => 0)
              (fun _ => throw ValueError) (mkClient "mediacloud") "cats"
              t t [] w _ _ [("detail", VStr "Internal Server Error")]
              eq_refl eq_refl)
    as (Hsample & _ & _ & _ & Hcount & _).
  - unfold no_results_envelope. cbn. intros [_ [=]].
  - rewrite (Hsample eq_refl), (Hcount eq_refl). split; reflexivity.
Defined.

(** X4: on an answered overview request whose body is JSON but not an
    object (null, a boolean, a number, a string or an array), each of
    the six methods raises TypeError, after the one overview request:
    none of them returns its empty value for such a body. *)
Theorem overview_methods_not_an_object (utcoffset : Z -> Z)
    (parse_other_forms : string -> result datetime)
    (self : SearchApiClient) (query : string)
    (start_date end_date : datetime) (kwargs : dict) (w : world)
    (r : response) (rest : list response) (env : value) :
  pending w = r :: rest ->
  resp_json r = Some env ->
  (forall d : dict, env <> VDict d) ->
  let w' :=
    mkWorld rest
      (sent w ++ [post_request (_collection self +:+ "/search/overview")
                    (merged_params query start_date end_date kwargs)]) in
  sample self query start_date end_date kwargs w = (throw TypeError, w')
  /\ top_sources self query start_date end_date kwargs w
     = (throw TypeError, w')
  /\ top_tlds self query start_date end_date kwargs w
     = (throw TypeError, w')
  /\ top_languages self query start_date end_date kwargs w
     = (throw TypeError, w')
  /\ count self query start_date end_date kwargs w = (throw TypeError, w')
  /\ count_over_time utcoffset parse_other_forms self query start_date
       end_date kwargs w
     = (throw TypeError, w').
Proof.
  intros Hp Hj Hnot w'.
  pose proof (answer_served w r rest env Hp Hj) as Hanswer.
  destruct (is_no_results_not_dict env Hnot) as [[Hnone|Hnone] Hget];
    (assert (after w (post_request
                        (_collection self +:+ "/search/overview")
                        (merged_params query start_date end_date kwargs))
             = w')
      as Hw by (unfold after, w'; now rewrite Hp));
    repeat apply conj; run_overview_method Hanswer; now rewrite Hw.
Qed.

Lemma overview_methods_not_an_object_witness :
  let t := mkDatetime 2023 1 5 13 7 9 0 None false in
  let w := mkWorld [mkResponse (Some (VList [VStr "detail"])) ∅] [] in
  (sample (mkClient "mediacloud") "cats" t t [] w).1 = throw TypeError
  /\ (count (mkClient "mediacloud") "cats" t t [] w).1 = throw TypeError.
Proof.
  intros t w.
  destruct (overview_methods_not_an_object (fun _ => 0)
              (fun _ => throw ValueError) (mkClient "mediacloud") "cats"
              t t [] w _ _ (VList [VStr "detail"]) eq_refl eq_refl)
    as (Hsample & _ & _ & _ & Hcount & _).
  - discriminate.
  - rewrite Hsample, Hcount. split; reflexivity.
Defined.

(** X5: no method catches a failure of its request.  When the request
    goes unanswered or its answer is not JSON, each of the six overview
    methods, [item] and [terms] raises that very error, and the first
    [next()] of [all_items] raises it and finishes the generator; the
    request has been issued all the same. *)
Theorem request_failure_propagates (utcoffset : Z -> Z)
    (parse_other_forms : string -> result datetime)
    (self : SearchApiClient) (query : string)
    (start_date end_date : datetime) (kwargs : dict)
    (item_id field aggregation : string) (page_size : Z) (w : world)
    (e : exn) :
  answer w = throw e ->
  let params := merged_params query start_date end_date kwargs in
  let overview :=
    after w (post_request (_collection self +:+ "/search/overview")
               params) in
  sample self query start_date end_date kwargs w = (throw e, overview)
  /\ top_sources self query start_date end_date kwargs w
     = (throw e, overview)
  /\ top_tlds self query start_date end_date kwargs w = (throw e, overview)
  /\ top_languages self query start_date end_date kwargs w
     = (throw e, overview)
  /\ count self query start_date end_date kwargs w = (throw e, overview)
  /\ count_over_time utcoffset parse_other_forms self query start_date
       end_date kwargs w
     = (throw e, overview)
  /\ item self item_id w
     = (throw e,
        after w (get_request (_collection self +:+ "/article/" +:+ item_id)
                   None))
  /\ terms self query start_date end_date field aggregation kwargs w
     = (throw e,
        after w (get_request
                   (_collection self +:+ "/terms/" +:+ field +:+ "/"
                    +:+ aggregation)
                   (Some params)))
  /\ next (all_items self query start_date end_date page_size kwargs) w
     = (Raise e, Finished,
        after w (post_request (_collection self +:+ "/search/result")
                   params)).
Proof.
  intros Hanswer params overview.
  repeat apply conj;
    try (overview_method; rewrite Hanswer; reflexivity).
  - now rewrite item_run, Hanswer.
  - now rewrite terms_run, Hanswer.
  - unfold all_items. rewrite next_created, fetch_page_run.
    unfold answer, after in *. cbn [f_self f_query f_start_date f_end_date
                                     f_kwargs].
    fold params.
    destruct (pending w) as [|r rest]; [now injection Hanswer as <-|].
    destruct (resp_json r); [discriminate|]. now injection Hanswer as <-.
Qed.

Lemma request_failure_propagates_witness :
  let t := mkDatetime 2023 1 5 13 7 9 0 None false in
  (count (mkClient "mediacloud") "cats" t t [] (mkWorld [] [])).1
  = throw ConnectionError
  /\ (item (mkClient "mediacloud") "42"
        (mkWorld [mkResponse None ∅] [])).1
     = throw JSONDecodeError.
Proof.
  intros t.
  destruct (request_failure_propagates (fun _ => 0)
              (fun _ => throw ValueError) (mkClient "mediacloud") "cats"
              t t [] "42" "title" "top" 1000 (mkWorld [] [])
              ConnectionError eq_refl)
    as (_ & _ & _ & _ & Hcount & _).
  destruct (request_failure_propagates (fun _ => 0)
              (fun _ => throw ValueError) (mkClient "mediacloud") "cats"
              t t [] "42" "title" "top" 1000
              (mkWorld [mkResponse None ∅] []) JSONDecodeError eq_refl)
    as (_ & _ & _ & _ & _ & _ & Hitem & _).
  rewrite Hcount, Hitem. split; reflexivity.
Defined.

(** X6: on an answered overview request whose envelope is not a
    no-results envelope, [top_sources], [top_tlds], [top_languages] and
    [count_over_time] raise AttributeError when the value under their
    key ([topdomains], [toptlds], [toplangs], [dailycounts]) is not a
    dict: they call [items()] on it without looking at what it is. *)
Theorem aggregate_not_a_dict (utcoffset : Z -> Z)
    (parse_other_forms : string -> result datetime)
    (self : SearchApiClient) (query : string)
    (start_date end_date : datetime) (kwargs : dict) (w : world)
    (r : response) (rest : list response) (env v : value) :
  pending w = r :: rest ->
  resp_json r = Some env ->
  _is_no_results env = ok false ->
  (forall d : dict, v <> VDict d) ->
  let w' :=
    mkWorld rest
      (sent w ++ [post_request (_collection self +:+ "/search/overview")
                    (merged_params query start_date end_date kwargs)]) in
  (getitem env "topdomains" = ok v ->
   top_sources self query start_date end_date kwargs w
   = (throw AttributeError, w'))
  /\ (getitem env "toptlds" = ok v ->
      top_tlds self query start_date end_date kwargs w
      = (throw AttributeError, w'))
  /\ (getitem env "toplangs" = ok v ->
      top_languages self query start_date end_date kwargs w
      = (throw AttributeError, w'))
  /\ (getitem env "dailycounts" = ok v ->
      count_over_time utcoffset parse_other_forms self query start_date
        end_date kwargs w
      = (throw AttributeError, w')).
Proof.
  intros Hp Hj Hnone Hnot w'.
  pose proof (answer_served w r rest env Hp Hj) as Hanswer.
  pose proof (items_not_dict v Hnot) as Hitems.
  assert (after w (post_request (_collection self +:+ "/search/overview")
                     (merged_params query start_date end_date kwargs)) = w')
    as Hw by (unfold after, w'; now rewrite Hp).
  repeat apply conj; intros Hget; run_overview_method Hanswer;
    unfold _dict_to_list; try rewrite Hitems; now rewrite Hw.
Qed.

Lemma aggregate_not_a_dict_witness :
  let t := mkDatetime 2023 1 5 13 7 9 0 None false in
  let env := VDict [("total", VInt 0); ("topdomains", VList []);
                    ("dailycounts", VNone)] in
  let w := mkWorld [mkResponse (Some env) ∅] [] in
  (top_sources (mkClient "mediacloud") "cats" t t [] w).1
  = throw AttributeError.
Proof.
  intros t env w.
  destruct (aggregate_not_a_dict (fun _ => 0) (fun _ => throw ValueError)
              (mkClient "mediacloud") "cats" t t [] w _ _ env (VList [])
              eq_refl eq_refl eq_refl)
    as (Hsources & _).
  - discriminate.
  - now rewrite (Hsources eq_refl).
Defined.

(** X7: only a dict can be a no-results envelope.  Whenever
    [_is_no_results] is true of a value, the value is a dict that lacks
    [matches] and holds the message under [detail].  On [None], a
    boolean, a number or a datetime the predicate raises TypeError.  On
    a string it is false when [matches] occurs in the string, raises
    TypeError when [detail] occurs and [matches] does not, and is false
    otherwise; on a list likewise, with occurrence as an element. *)
Theorem is_no_results_true_only_on_dicts :
  (forall v : value,
     _is_no_results v = ok true ->
     exists d : dict, v = VDict d /\ no_results_envelope d)
  /\ _is_no_results VNone = throw TypeError
  /\ (forall b : bool, _is_no_results (VBool b) = throw TypeError)
  /\ (forall n : Z, _is_no_results (VInt n) = throw TypeError)
  /\ (forall num den : Z, _is_no_results (VFloat num den) = throw TypeError)
  /\ (forall t : datetime, _is_no_results (VDatetime t) = throw TypeError)
  /\ (forall s : string,
        _is_no_results (VStr s)
        = if is_substring "matches" s then ok false
          else if is_substring "detail" s then throw TypeError
          else ok false)
  /\ (forall l : list value,
        _is_no_results (VList l)
        = if existsb (fun x => eq_str x "matches") l then ok false
          else if existsb (fun x => eq_str x "detail") l
               then throw TypeError
          else ok false).
Proof.
  assert (forall s : string,
            _is_no_results (VStr s)
            = if is_substring "matches" s then ok false
              else if is_substring "detail" s then throw TypeError
              else ok false) as Hstr.
  { intros s. unfold _is_no_results. cbn.
    destruct (is_substring "matches" s); cbn; [reflexivity|].
    destruct (is_substring "detail" s); reflexivity. }
  assert (forall l : list value,
            _is_no_results (VList l)
            = if existsb (fun x => eq_str x "matches") l then ok false
              else if existsb (fun x => eq_str x "detail") l
                   then throw TypeError
              else ok false) as Hlist.
  { intros l. unfold _is_no_results. cbn.
    destruct (existsb _ l); cbn; [reflexivity|].
    destruct (existsb _ l); reflexivity. }
  split; [|repeat split; auto].
  intros v Htrue.
  destruct v as [| | | | s | l | d |]; try discriminate.
  - rewrite Hstr in Htrue.
    destruct (is_substring "matches" s); [discriminate|].
    destruct (is_substring "detail" s); discriminate.
  - rewrite Hlist in Htrue.
    destruct (existsb _ l); [discriminate|].
    destruct (existsb _ l); discriminate.
  - exists d. split; [reflexivity|].
    rewrite is_no_results_dict in Htrue. unfold no_results_envelope.
    destruct (dict_get "matches" d); [discriminate|].
    destruct (dict_get "detail" d) as [v|]; [|discriminate].
    injection Htrue as Htrue. apply eq_str_true in Htrue as ->. now split.
Qed.

Lemma is_no_results_true_only_on_dicts_witness :
  (exists d : dict,
     VDict [("detail", VStr "No results found!"); ("took", VInt 3)] = VDict d
     /\ no_results_envelope d)
  /\ _is_no_results (VStr "details follow") = throw TypeError
  /\ _is_no_results (VList [VStr "matches"; VStr "detail"]) = ok false.
Proof.
  destruct is_no_results_true_only_on_dicts
    as (Hdict & _ & _ & _ & _ & _ & Hstr & Hlist).
  split; [|split].
  - exact (Hdict (VDict [("detail", VStr "No results found!");
                         ("took", VInt 3)]) eq_refl).
  - exact (Hstr "details follow").
  - exact (Hlist [VStr "matches"; VStr "detail"]).
Defined.

(** ** Steps of the generator *)

(** X8: one [next()] of [all_items] issues at most one request.  Either
    it ends the iteration without touching the network, or it issues one
    POST and consumes the answer to it: a JSON answer is yielded and
    leaves the generator suspended, a failure is raised and leaves it
    finished.  After a step that does not yield, every later [next()]
    stops at once, without a request. *)
Theorem next_one_request_at_most (g : generator) (w : world) :
  (next g w = (StopIteration, Finished, w)
   \/ exists rq : request,
        (next g w).2 = after w rq
        /\ req_method rq = "POST"
        /\ match (next g w).1.1 with
           | Yield page =>
               answer w = ok page
               /\ exists a p r, (next g w).1.2 = Suspended a p r
           | Raise e => answer w = throw e /\ (next g w).1.2 = Finished
           | StopIteration => False
           end)
  /\ ((forall page, (next g w).1.1 <> Yield page) ->
      forall w2 : world,
        next (next g w).1.2 w2 = (StopIteration, Finished, w2)).
Proof.
  assert (forall a p,
            exists rq : request,
              (fetch_page a p w).2 = after w rq
              /\ req_method rq = "POST"
              /\ match (fetch_page a p w).1.1 with
                 | Yield page =>
                     answer w = ok page
                     /\ exists a' p' r,
                          (fetch_page a p w).1.2 = Suspended a' p' r
                 | Raise e =>
                     answer w = throw e
                     /\ (fetch_page a p w).1.2 = Finished
                 | StopIteration => False
                 end) as Hfetch.
  { intros a p.
    exists (post_request (_collection (f_self a) +:+ "/search/result") p).
    rewrite fetch_page_run. unfold answer, after. cbv zeta.
    destruct (pending w) as [|r rest]; [repeat split|].
    destruct (resp_json r); repeat split; eauto. }
  assert (forall a p,
            (forall page, (fetch_page a p w).1.1 <> Yield page) ->
            (fetch_page a p w).1.2 = Finished) as Hdone.
  { intros a p. rewrite fetch_page_run. cbv zeta.
    destruct (pending w) as [|r rest]; [reflexivity|].
    destruct (resp_json r) as [page|]; [|reflexivity].
    intros Hno. now destruct (Hno page). }
  destruct g as [a|a params r|].
  - rewrite next_created. split; [right; apply Hfetch|].
    intros Hno w2. now rewrite Hdone.
  - rewrite next_suspended. destruct (resume_token r).
    + split; [right; apply Hfetch|]. intros Hno w2. now rewrite Hdone.
    + split; [now left | reflexivity].
  - split; [now left | reflexivity].
Qed.

Lemma dict_set_length (k : string) (v : value) (d : dict) :
  is_Some (dict_get k d) -> length (dict_set k v d) = length d.
Proof.
  induction d as [|[k' v'] d IH]; cbn; [intros [? [=]]|].
  destruct (String.eqb_spec k' k); cbn; [reflexivity|].
  intros H. now rewrite IH.
Qed.

Lemma dict_set_keeps (k k' : string) (v : value) (d : dict) :
  is_Some (dict_get k d) -> is_Some (dict_get k (dict_set k' v d)).
Proof.
  intros H. destruct (String.eqb_spec k' k) as [->|Hne].
  - rewrite dict_get_set_eq. eauto.
  - now rewrite dict_get_set_ne.
Qed.

Lemma dict_update_keeps (k : string) (other : dict) :
  forall d : dict,
    is_Some (dict_get k d) \/ is_Some (dict_get k other) ->
    is_Some (dict_get k (dict_update d other)).
Proof.
  unfold dict_update.
  induction other as [|[k0 v0] other IH]; intros d H; cbn in *.
  - destruct H as [H|[? [=]]]. exact H.
  - apply IH. destruct (String.eqb_spec k0 k) as [->|Hne].
    + left. rewrite dict_get_set_eq. eauto.
    + destruct H as [H|H]; [left; now apply dict_set_keeps | now right].
Qed.

(** X9: a [resume] passed by the caller holds for the first request
    only.  When the first response carries a resume token, the second
    request carries the token under [resume] and every other key as in
    the first request; the dict has no second [resume] entry, so that it
    keeps its size when the caller had passed one. *)
Theorem resume_token_replaces_caller_resume (self : SearchApiClient)
    (query : string) (start_date end_date : datetime) (page_size : Z)
    (kwargs : dict) (w : world) (r : response) (rest : list response)
    (page : value) (token : string) :
  pending w = r :: rest ->
  resp_json r = Some page ->
  resume_token r = Some token ->
  let endpoint := _collection self +:+ "/search/result" in
  let params := merged_params query start_date end_date kwargs in
  let step1 :=
    next (all_items self query start_date end_date page_size kwargs) w in
  let step2 := next step1.1.2 step1.2 in
  step1.1.1 = Yield page
  /\ exists params2 : dict,
       sent step2.2
       = sent w ++ [post_request endpoint params;
                    post_request endpoint params2]
       /\ dict_get "resume" params2 = Some (VStr token)
       /\ (forall k, k <> "resume" ->
                     dict_get k params2 = dict_get k params)
       /\ (is_Some (dict_get "resume" kwargs) ->
           length params2 = length params).
Proof.
  intros Hp Hj Htoken endpoint params step1 step2.
  assert (step1 = (Yield page,
                   Suspended (mkFrame self query start_date end_date
                                page_size kwargs) params r,
                   mkWorld rest (sent w ++ [post_request endpoint params])))
    as Hstep1.
  { subst step1. unfold all_items. rewrite next_created, fetch_page_run.
    cbv zeta. now rewrite Hp, Hj. }
  split; [now rewrite Hstep1|].
  exists (dict_set "resume" (VStr token) params).
  split; [|split; [|split]].
  - subst step2. rewrite Hstep1. cbn [fst snd].
    rewrite next_suspended, Htoken, fetch_page_sent. cbn [sent].
    now rewrite <- app_assoc.
  - apply dict_get_set_eq.
  - intros k Hk. now apply dict_get_set_ne.
  - intros Hcaller. apply dict_set_length.
    apply dict_update_keeps. now right.
Qed.

Lemma resume_token_replaces_caller_resume_witness :
  let t := mkDatetime 2023 1 5 13 7 9 0 None false in
  let page := VDict [("matches", VList [])] in
  let r := mkResponse (Some page) {[ "x-resume-token" := "abc" ]} in
  let url :=
    "http://colsearch.sawood-dev.us.archive.org:8000/v1/mediacloud/search/result" in
  let q := VStr "cats AND publication_date:[2023-01-05 TO 2023-01-05]" in
  let step1 :=
    next (all_items (mkClient "mediacloud") "cats" t t 1000
            [("resume", VStr "mine")])
      (mkWorld [r; r] []) in
  let step2 := next step1.1.2 step1.2 in
  step1.1.1 = Yield page
  /\ sent step2.2
     = [mkRequest "POST" url None
          (Some [("q", q); ("resume", VStr "mine")]);
        mkRequest "POST" url None
          (Some [("q", q); ("resume", VStr "abc")])].
Proof.
  intros t page r url q step1 step2.
  destruct (resume_token_replaces_caller_resume (mkClient "mediacloud")
              "cats" t t 1000 [("resume", VStr "mine")]
              (mkWorld [r; r] []) r [r] page "abc"
              eq_refl eq_refl eq_refl)
    as (Hyield & _).
  split; [exact Hyield | reflexivity].
Defined.

(** ** How an iteration can end *)

(** Over responses that all let the loop go on, the loop yields their
    bodies, issues one request each, and goes on with the rest. *)
Lemma paginate_continues (endpoint : string) (pre : list response) :
  forall (params : dict) (rest : list response),
    Forall continues pre ->
    exists (pages : list value) (rqs : list request) (params' : dict),
      Some <$> pages = resp_json <$> pre
      /\ length rqs = length pre
      /\ paginate endpoint params (pre ++ rest)
         = (pages ++ (paginate endpoint params' rest).1.1,
            rqs ++ (paginate endpoint params' rest).1.2,
            (paginate endpoint params' rest).2).
Proof.
  induction pre as [|r pre IH]; intros params rest Hpre.
  - exists [], [], params.
    split; [reflexivity | split; [reflexivity|]]. cbn [app].
    now destruct (paginate endpoint params rest) as [[? ?] ?].
  - apply Forall_cons in Hpre as [[[page Hpage] [token Htoken]] Hpre].
    destruct (IH (dict_set "resume" (VStr token) params) rest Hpre)
      as (pages & rqs & params' & Hpages & Hlen & Heq).
    exists (page :: pages), (post_request endpoint params :: rqs), params'.
    split; [cbn; now rewrite Hpage, Hpages|].
    split; [cbn; now rewrite Hlen|].
    cbn [app paginate]. rewrite Hpage, Htoken, Heq. reflexivity.
Qed.

(** X10: the iteration does not end on its own while the responses carry
    resume tokens.  After responses that all have a JSON body and a
    token, [all_items] has yielded every one of their bodies; if nothing
    more is served, the next request goes unanswered and the iteration
    ends in ConnectionError; if the next answer is not JSON, it ends in
    JSONDecodeError, that answer consumed and the later ones untouched.
    In both cases one request more than pages has been issued. *)
Theorem all_items_ends_in_failure (self : SearchApiClient) (query : string)
    (start_date end_date : datetime) (page_size : Z) (kwargs : dict)
    (pre : list response) (log : list request) (fuel : nat) :
  Forall continues pre ->
  (let run :=
     consume fuel (all_items self query start_date end_date page_size
                     kwargs)
       (mkWorld pre log) in
   (length pre < fuel)%nat ->
   Some <$> run.1.1 = resp_json <$> pre
   /\ run.1.2 = Raised ConnectionError
   /\ pending run.2 = []
   /\ length (sent run.2) = (length log + length pre + 1)%nat)
  /\ forall (r : response) (post : list response),
       let run :=
         consume fuel (all_items self query start_date end_date page_size
                         kwargs)
           (mkWorld (pre ++ r :: post) log) in
       resp_json r = None ->
       (length (pre ++ r :: post) < fuel)%nat ->
       Some <$> run.1.1 = resp_json <$> pre
       /\ run.1.2 = Raised JSONDecodeError
       /\ pending run.2 = post
       /\ length (sent run.2) = (length log + length pre + 1)%nat.
Proof.
  intros Hpre. split.
  - intros run Hfuel. subst run.
    rewrite consume_all_items by assumption. cbv zeta.
    destruct (paginate_continues (_collection self +:+ "/search/result")
                pre (merged_params query start_date end_date kwargs) []
                Hpre)
      as (pages & rqs & params' & Hpages & Hlen & Heq).
    rewrite app_nil_r in Heq. rewrite Heq. cbn.
    rewrite !app_nil_r, !length_app, Hlen. cbn.
    repeat split; [assumption | | lia].
    apply drop_ge. lia.
  - intros r post run Hnone Hfuel. subst run.
    rewrite consume_all_items by assumption. cbv zeta.
    destruct (paginate_continues (_collection self +:+ "/search/result")
                pre (merged_params query start_date end_date kwargs)
                (r :: post) Hpre)
      as (pages & rqs & params' & Hpages & Hlen & Heq).
    rewrite Heq. cbn. rewrite Hnone. cbn.
    rewrite !app_nil_r, !length_app, Hlen. cbn.
    repeat split; [assumption | | lia].
    replace (length pre + 1)%nat with (length pre + 1 + 0)%nat by lia.
    rewrite <- Nat.add_assoc, drop_app_add'; [reflexivity | reflexivity].
Qed.

Lemma all_items_ends_in_failure_witness :
  let t := mkDatetime 2023 1 5 13 7 9 0 None false in
  let page := VDict [("matches", VList [])] in
  let more := mkResponse (Some page) {[ "x-resume-token" := "abc" ]} in
  let run := consume 4 (all_items (mkClient "mediacloud") "cats" t t 1000 [])
               (mkWorld [more; more] []) in
  Some <$> run.1.1 = [Some page; Some page]
  /\ run.1.2 = Raised ConnectionError
  /\ pending run.2 = []
  /\ length (sent run.2) = 3%nat.
Proof.
  intros t page more run.
  refine (proj1 (all_items_ends_in_failure (mkClient "mediacloud") "cats"
                   t t 1000 [] [more; more] [] 4 _) _).
  - repeat constructor; eexists; reflexivity.
  - cbn. lia.
Defined.

(** The loop reads a response through its body and resume token only. *)
Lemma paginate_same_pages (endpoint : string) (rs rs' : list response) :
  Forall2 same_page rs rs' ->
  forall params : dict,
    paginate endpoint params rs = paginate endpoint params rs'.
Proof.
  induction 1 as [|r r' rs rs' [Hjson Htoken] _ IH]; intros params;
    [reflexivity|].
  cbn [paginate]. rewrite Hjson, Htoken.
  destruct (resp_json r'); [|reflexivity].
  destruct (resume_token r'); [|reflexivity].
  now rewrite IH.
Qed.

(** X11: [all_items] reads nothing of a response but its parsed body and
    its [x-resume-token] header: two sequences of responses that agree
    on these, whatever their other headers, give the same pages, the
    same ending and the same requests. *)
Theorem all_items_reads_body_and_token_only (self : SearchApiClient)
    (query : string) (start_date end_date : datetime) (page_size : Z)
    (kwargs : dict) (rs rs' : list response) (log : list request)
    (fuel : nat) :
  Forall2 same_page rs rs' ->
  (length rs < fuel)%nat ->
  let run :=
    consume fuel (all_items self query start_date end_date page_size kwargs)
      (mkWorld rs log) in
  let run' :=
    consume fuel (all_items self query start_date end_date page_size kwargs)
      (mkWorld rs' log) in
  run.1 = run'.1 /\ sent run.2 = sent run'.2.
Proof.
  intros Hsame Hfuel run run'. subst run run'.
  pose proof (Forall2_length _ _ _ Hsame) as Hlen.
  rewrite !consume_all_items by lia. cbv zeta.
  rewrite (paginate_same_pages _ rs rs' Hsame). split; reflexivity.
Qed.

Lemma all_items_reads_body_and_token_only_witness :
  let t := mkDatetime 2023 1 5 13 7 9 0 None false in
  let page := VDict [("matches", VList [])] in
  let plain := mkResponse (Some page) ∅ in
  let noisy := mkResponse (Some page)
                 {[ "x-resume-token" := ""; "retry-after" := "120" ]} in
  let run := consume 3 (all_items (mkClient "mediacloud") "cats" t t 1000 [])
               (mkWorld [plain] []) in
  let run' := consume 3 (all_items (mkClient "mediacloud") "cats" t t 1000 [])
                (mkWorld [noisy] []) in
  run.1 = run'.1 /\ sent run.2 = sent run'.2.
Proof.
  intros t page plain noisy run run'.
  refine (all_items_reads_body_and_token_only (mkClient "mediacloud") "cats"
            t t 1000 [] [plain] [noisy] [] 3 _ _).
  - repeat constructor.
  - cbn. lia.
Defined.

(** ** The layout of the parameter mapping *)

Lemma dict_update_layout (k0 : string) (other : dict) :
  forall (v0 : value) (acc : dict),
    NoDup other.*1 ->
    k0 ∉ acc.*1 ->
    (forall k, k ∈ acc.*1 -> k ∉ other.*1) ->
    dict_update ((k0, v0) :: acc) other
    = (k0, default v0 (dict_get k0 other)) :: acc ++ without_key k0 other.
Proof.
  unfold dict_update, without_key.
  induction other as [|[k v] other IH]; intros v0 acc Hwf Hk0 Hdisj.
  - cbn. now rewrite app_nil_r.
  - cbn in Hwf. apply NoDup_cons in Hwf as [Hk Hwf].
    cbn [fold_left fst snd dict_set dict_get].
    destruct (String.eqb_spec k0 k) as [<-|Hne].
    + rewrite String.eqb_refl. cbn [default].
      rewrite IH; [|assumption..|].
      * rewrite (dict_get_notin k0 other Hk). cbn [default].
        rewrite filter_cons_False by (cbn; tauto). reflexivity.
      * intros k' Hk'. specialize (Hdisj k' Hk'). cbn in Hdisj.
        now apply not_elem_of_cons in Hdisj as [_ ?].
    + assert ((k =? k0)%string = false) as ->
        by (apply String.eqb_neq; congruence).
      assert (k ∉ acc.*1) as Hkacc.
      { intros Hin. apply (Hdisj k Hin). cbn. apply list_elem_of_here. }
      rewrite (dict_set_fresh k v acc Hkacc).
      rewrite IH; [|assumption| |].
      * rewrite filter_cons_True by (cbn; congruence).
        now rewrite <- app_assoc.
      * rewrite fmap_app. cbn. rewrite elem_of_app, list_elem_of_singleton.
        intros [?|?]; [contradiction | congruence].
      * intros k'. rewrite fmap_app. cbn.
        rewrite elem_of_app, list_elem_of_singleton.
        intros [Hin| ->]; [|assumption].
        specialize (Hdisj k' Hin). cbn in Hdisj.
        now apply not_elem_of_cons in Hdisj as [_ ?].
Qed.

(** X12: the parameter mapping of a search is laid out with [q] first,
    bound to the caller's [q] if there is one and to the constructed
    query otherwise, followed by the caller's other keyword arguments in
    the caller's order. *)
Theorem merged_params_layout (query : string)
    (start_date end_date : datetime) (kwargs : dict) :
  dict_wf kwargs ->
  search_params query start_date end_date kwargs
  = ok (("q", default (VStr (query +:+ " AND "
                             +:+ date_clause start_date end_date))
                (dict_get "q" kwargs))
        :: without_key "q" kwargs).
Proof.
  intros Hwf. rewrite search_params_ok. unfold merged_params, full_query.
  rewrite (dict_update_layout "q" kwargs _ []); [reflexivity | exact Hwf | |].
  - apply not_elem_of_nil.
  - intros k Hk. now apply not_elem_of_nil in Hk.
Qed.

Lemma merged_params_layout_witness :
  let t := mkDatetime 2023 1 5 13 7 9 0 None false in
  search_params "cats" t t
    [("sort", VStr "asc"); ("q", VStr "dogs"); ("page", VInt 2)]
  = ok [("q", VStr "dogs"); ("sort", VStr "asc"); ("page", VInt 2)].
Proof.
  intros t.
  refine (merged_params_layout "cats" t t
            [("sort", VStr "asc"); ("q", VStr "dogs"); ("page", VInt 2)] _).
  unfold dict_wf. compute_done.
Defined.

(** ** Days that do not parse *)

Lemma daily_loop_invalid_day (utcoffset : Z -> Z)
    (parse_other_forms : string -> result datetime)
    (pre : list day_count) (key : string) (v : value) (post : dict)
    (y m d : Z) :
  Forall day_count_valid pre ->
  parse_ymd key = Some (y, m, d) ->
  valid_date y m d = false ->
  forall to_return : list value,
    daily_loop utcoffset parse_other_forms
      ((dailycounts_item <$> pre) ++ (key, v) :: post) to_return
    = throw ValueError.
Proof.
  intros Hpre Hkey Hinvalid.
  induction Hpre as [|dc pre Hdc _ IH]; intros to_return.
  - cbn [fmap list_fmap app daily_loop]. unfold parse_datetime.
    now rewrite Hkey, Hinvalid.
  - change ((dailycounts_item <$> dc :: pre) ++ (key, v) :: post)
      with ((iso_day (dc_year dc) (dc_month dc) (dc_day dc), dc_value dc)
            :: ((dailycounts_item <$> pre) ++ (key, v) :: post)).
    cbn [daily_loop].
    rewrite parse_datetime_iso_day by exact Hdc. cbn [and_then ok].
    unfold day_entry, timestamp. cbn [tzinfo midnight].
    destruct (mktime_ok_or_ValueError utcoffset
                (midnight (dc_year dc) (dc_month dc) (dc_day dc)))
      as [[u ->]| ->]; [|reflexivity].
    cbn [and_then ok]. apply IH.
Qed.

(** X13: [count_over_time] returns all the days or none.  When a key of
    [dailycounts] has the shape [YYYY-MM-DD] but names no calendar day
    (a month 13, a 30th of February), the method raises ValueError,
    whatever valid days come before it and whatever comes after it: the
    entries built so far are dropped.  (A valid day before it for which
    [timestamp()] raises ends the call in ValueError as well.) *)
Theorem count_over_time_invalid_day (utcoffset : Z -> Z)
    (parse_other_forms : string -> result datetime)
    (self : SearchApiClient) (query : string)
    (start_date end_date : datetime) (kwargs : dict) (w : world)
    (r : response) (rest : list response) (env : value)
    (pre : list day_count) (key : string) (v : value) (post : dict)
    (y m d : Z) :
  pending w = r :: rest ->
  resp_json r = Some env ->
  _is_no_results env = ok false ->
  getitem env "dailycounts"
  = ok (VDict ((dailycounts_item <$> pre) ++ (key, v) :: post)) ->
  Forall day_count_valid pre ->
  parse_ymd key = Some (y, m, d) ->
  valid_date y m d = false ->
  count_over_time utcoffset parse_other_forms self query start_date
    end_date kwargs w
  = (throw ValueError,
     mkWorld rest
       (sent w ++ [post_request (_collection self +:+ "/search/overview")
                     (merged_params query start_date end_date kwargs)])).
Proof.
  intros Hp Hj Hnone Hdaily Hpre Hkey Hinvalid.
  pose proof (answer_served w r rest env Hp Hj) as Hanswer.
  run_overview_method Hanswer. cbn [items]. cbv beta iota delta [ok].
  rewrite (daily_loop_invalid_day utcoffset parse_other_forms pre key v
             post y m d Hpre Hkey Hinvalid).
  unfold after. now rewrite Hp.
Qed.

Lemma count_over_time_invalid_day_witness :
  let t := mkDatetime 2023 1 5 13 7 9 0 None false in
  let env := VDict [("dailycounts", VDict [("2023-02-28", VInt 5);
                                           ("2023-02-30", VInt 3);
                                           ("2023-03-01", VInt 1)])] in
  let w := mkWorld [mkResponse (Some env) ∅] [] in
  (count_over_time (fun _ => 0) (fun _ => throw ValueError)
     (mkClient "mediacloud") "cats" t t [] w).1
  = throw ValueError.
Proof.
  intros t env w.
  rewrite (count_over_time_invalid_day (fun _ => 0)
             (fun _ => throw ValueError) (mkClient "mediacloud") "cats"
             t t [] w _ _ env [mkDayCount 2023 2 28 (VInt 5)]
             "2023-02-30" (VInt 3) [("2023-03-01", VInt 1)] 2023 2 30
             eq_refl eq_refl eq_refl eq_refl
             ltac:(repeat constructor) eq_refl eq_refl).
  reflexivity.
Defined.

(** ** Reading a clause back *)

Lemma valid_year (t : datetime) : valid t = true -> 1 <= year t <= 9999.
Proof.
  unfold valid. rewrite andb_true_iff. intros [Hd _].
  apply valid_date_bounds in Hd. lia.
Qed.

Lemma string_cons_inj (c : ascii) (a b : string) :
  String c a = String c b -> a = b.
Proof. now intros [= ->]. Qed.

Lemma zpad_prefix_inj (w : nat) (n n' : Z) (rest rest' : string) :
  0 <= n < 10 ^ Z.of_nat w ->
  0 <= n' < 10 ^ Z.of_nat w ->
  zpad w n +:+ rest = zpad w n' +:+ rest' ->
  n = n' /\ rest = rest'.
Proof.
  intros Hn Hn' Heq.
  apply (f_equal (read_digits w 0)) in Heq.
  rewrite !read_digits_zpad_exact in Heq by assumption.
  injection Heq as -> ->. now split.
Qed.

(** Reading back a number written without padding. *)
Lemma read_number_decimal (k : nat) :
  forall (n : Z) (s : string),
    0 < n < 10 ^ Z.of_nat k ->
    read_number 0 (decimal k n +:+ s) = read_number n s.
Proof.
  induction k as [|k IH]; intros n s Hn; [cbn in Hn; lia|].
  rewrite Nat2Z.inj_succ, Z.pow_succ_r in Hn by lia.
  cbn [decimal]. rewrite append_assoc. cbn [String.append].
  pose proof (Z.div_mod n 10 ltac:(lia)) as Hdiv.
  pose proof (Z.mod_pos_bound n 10 eq_refl) as Hmod.
  destruct (Z.eqb_spec (n / 10) 0) as [Hzero|Hpos].
  - cbn [String.append read_number]. rewrite digit_val_digit.
    do 2 f_equal. lia.
  - assert (0 <= n / 10) by (apply Z.div_pos; lia).
    assert (n / 10 < 10 ^ Z.of_nat k)
      by (apply Z.div_lt_upper_bound; lia).
    rewrite IH by lia. cbn [read_number]. rewrite digit_val_digit.
    do 2 f_equal. lia.
Qed.

Lemma decimal_prefix_inj (n n' : Z) (rest rest' : string) :
  0 < n < 10000 ->
  0 < n' < 10000 ->
  decimal 4 n +:+ String "-" rest = decimal 4 n' +:+ String "-" rest' ->
  n = n' /\ rest = rest'.
Proof.
  intros Hn Hn' Heq.
  apply (f_equal (read_number 0)) in Heq.
  rewrite !read_number_decimal in Heq by (cbn; lia).
  cbn in Heq. injection Heq as -> ->. now split.
Qed.

Lemma day_text_prefix_inj (y m d y' m' d' : Z) (rest rest' : string) :
  0 < y < 10000 -> 0 <= m < 100 -> 0 <= d < 100 ->
  0 < y' < 10000 -> 0 <= m' < 100 -> 0 <= d' < 100 ->
  day_text y m d +:+ rest = day_text y' m' d' +:+ rest' ->
  (y = y' /\ m = m' /\ d = d') /\ rest = rest'.
Proof.
  intros Hy Hm Hd Hy' Hm' Hd'. unfold day_text.
  rewrite !append_assoc. cbn [String.append].
  intros Heq.
  apply decimal_prefix_inj in Heq as [-> Heq]; [|assumption..].
  apply zpad_prefix_inj in Heq as [-> Heq]; [|cbn; lia..].
  apply string_cons_inj in Heq.
  apply zpad_prefix_inj in Heq as [-> Heq]; [|cbn; lia..].
  now repeat split.
Qed.

(** X14: the date-range clause determines its two calendar days: two
    pairs of (valid) datetimes give the same clause only if their start
    dates fall on the same day and their end dates fall on the same
    day.  This holds for every year, the years below 1000 included,
    which are written without leading zeros: the year is read back as
    the digits up to the first hyphen. *)
Theorem date_query_clause_determines_days
    (start_date end_date start_date' end_date' : datetime) :
  valid start_date = true ->
  valid end_date = true ->
  valid start_date' = true ->
  valid end_date' = true ->
  _date_query_clause start_date end_date
  = _date_query_clause start_date' end_date' ->
  same_day start_date start_date' /\ same_day end_date end_date'.
Proof.
  intros Hs He Hs' He'.
  pose proof (valid_year start_date Hs). pose proof (valid_year end_date He).
  pose proof (valid_year start_date' Hs').
  pose proof (valid_year end_date' He').
  apply valid_fields in Hs as (? & ? & ?).
  apply valid_fields in He as (? & ? & ?).
  apply valid_fields in Hs' as (? & ? & ?).
  apply valid_fields in He' as (? & ? & ?).
  rewrite !date_query_clause_ok. unfold date_clause.
  cbn [String.append]. intros Heq. apply (inj ok) in Heq.
  do 18 apply string_cons_inj in Heq.
  apply day_text_prefix_inj in Heq as [Hstart Heq]; [|lia..].
  cbn [String.append] in Heq. do 4 apply string_cons_inj in Heq.
  apply day_text_prefix_inj in Heq as [Hend _]; [|lia..].
  split; assumption.
Qed.

Lemma date_query_clause_determines_days_witness :
  same_day (mkDatetime 999 1 5 13 7 9 0 None false)
           (mkDatetime 999 1 5 0 0 0 0 None false)
  /\ same_day (mkDatetime 2023 2 28 23 59 59 0 None false)
              (mkDatetime 2023 2 28 6 30 0 0 None false).
Proof.
  exact (date_query_clause_determines_days
           (mkDatetime 999 1 5 13 7 9 0 None false)
           (mkDatetime 2023 2 28 23 59 59 0 None false)
           (mkDatetime 999 1 5 0 0 0 0 None false)
           (mkDatetime 2023 2 28 6 30 0 0 None false)
           eq_refl eq_refl eq_refl eq_refl eq_refl).
Defined.
